(** * YouTube trending finder: a shallow embedding of
      [youtube_trending_finder.py] and [config.py]

    The Python program is embedded as Rocq functions:

    - Python values that travel through the program (decoded JSON, the
      entries of the [video_info] dictionaries) are the type [pyval];
      a [dict] with string keys is a [gmap string pyval].
    - Python [float] arithmetic is embedded in exact rational arithmetic
      ([Q]): rounding, overflow to infinity and [OverflowError] of the
      binary64 operations are outside the model.  Results on scores are
      stated up to [Qeq].
    - [str] is [string], read as the UTF-8 bytes of the text.
    - Code that can raise returns an [outcome]; code that reads the clock,
      calls the remote API or prints threads a [world] through the
      [Py] monad.
    - What the program takes from its libraries and environment (the
      clock, the remote service, [datetime.fromisoformat], [isoformat],
      [int] on a [str], [str()] of a value or exception) is the class
      [Runtime]; every result holds for every runtime. *)

From Stdlib Require Import ZArith QArith Qminmax String Ascii.
From Stdlib Require Import Decimal DecimalString DecimalN DecimalPos.
From stdpp Require Import gmap strings list fin_maps sorting.

Set Warnings "-register-all".
Local Open Scope string_scope.

(** ** config.py *)

Module config.
Definition DEFAULT_MAX_RESULTS : Z := 50.
Definition TRENDING_PERIOD_DAYS : Z := 14.
End config.

(** ** Python values, exceptions and the world *)

Inductive pyval : Type :=
| PNone
| PBool (b : bool)
| PInt (z : Z)
| PFloat (q : Q)
| PStr (s : string)
| PList (l : list pyval)
| PDict (d : gmap string pyval).

(** The exception classes the program can meet.  All but
    [KeyboardInterrupt] derive from [Exception]; [HttpError] is
    [googleapiclient.errors.HttpError], [TransportError] stands for the
    socket, TLS and protocol errors of the HTTP layer. *)
Inductive pyexn : Type :=
| HttpError (reason : string)
| TransportError (reason : string)
| KeyError (key : string)
| TypeError
| ValueError
| AttributeError
| KeyboardInterrupt.

Definition is_HttpError (e : pyexn) : bool :=
  match e with HttpError _ => true | _ => false end.

Definition is_Exception (e : pyexn) : bool :=
  match e with KeyboardInterrupt => false | _ => true end.

Inductive outcome (A : Type) : Type :=
| Returns (a : A)
| Raises (e : pyexn).
Arguments Returns {A} a.
Arguments Raises {A} e.

(** Sequencing of code that may raise but has no other effect *)
Definition and_then {A B} (o : outcome A) (k : A -> outcome B) : outcome B :=
  match o with
  | Returns a => k a
  | Raises e => Raises e
  end.

Notation "x <~ o ;; k" := (and_then o (fun x => k))
  (at level 100, o at next level, right associativity).

(** A list comprehension [[f(x) for x in l]] whose [f] may raise *)
Fixpoint traverse {A B} (f : A -> outcome B) (l : list A) : outcome (list B) :=
  match l with
  | [] => Returns []
  | x :: l' => y <~ f x ;; ys <~ traverse f l' ;; Returns (y :: ys)
  end.

(** [datetime.datetime]: an aware value is an instant, in microseconds
    since the epoch; a naive value carries no offset. *)
Inductive datetime : Type :=
| Aware (us : Z)
| Naive (us : Z).

(** The two requests the program builds on the API client. *)
Inductive request : Type :=
| SearchList (q part type_ : string) (maxResults : Z)
             (order publishedAfter : string)
| VideosList (part id : string).

(** How many times the clock was read, the requests executed so far
    (oldest first) and the lines printed so far (oldest first). *)
Record world : Type := World {
  reads : nat;
  calls : list request;
  console : list string
}.

Class Runtime : Type := {
  (** the instant [datetime.now(timezone.utc)] returns at its n-th reading *)
  utcnow : nat -> Z;
  (** what [.execute()] does with a request, given the earlier requests *)
  execute : list request -> request -> outcome pyval;
  (** [datetime.fromisoformat]; [None] is its [ValueError] *)
  fromisoformat : string -> option datetime;
  (** [.isoformat()] of an aware UTC datetime *)
  isoformat : Z -> string;
  (** [int(s)] for a [str]; [None] is its [ValueError] *)
  int_of_str : string -> option Z;
  (** [str(v)], as an f-string formats a value *)
  format_value : pyval -> string;
  (** [str(e)] of an exception *)
  exn_text : pyexn -> string
}.

(** ** The [Py] monad: state and exceptions *)

Definition Py (A : Type) : Type := world -> outcome A * world.

Definition ret {A} (a : A) : Py A := fun w => (Returns a, w).

Definition bind {A B} (m : Py A) (k : A -> Py B) : Py B :=
  fun w =>
    match m w with
    | (Returns a, w') => k a w'
    | (Raises e, w') => (Raises e, w')
    end.

Notation "x <- m ;; k" := (bind m (fun x => k))
  (at level 100, m at next level, right associativity).

Definition lift {A} (o : outcome A) : Py A := fun w => (o, w).

Fixpoint mapM {A B} (f : A -> Py B) (l : list A) : Py (list B) :=
  match l with
  | [] => ret []
  | x :: l' => y <- f x ;; ys <- mapM f l' ;; ret (y :: ys)
  end.

(** [try: body except HttpError as e: h1(e) except Exception as e: h2(e)] *)
Definition try_except {A} (body : Py A)
    (on_http : pyexn -> Py A) (on_exception : pyexn -> Py A) : Py A :=
  fun w =>
    match body w with
    | (Returns a, w') => (Returns a, w')
    | (Raises e, w') =>
        if is_HttpError e then on_http e w'
        else if is_Exception e then on_exception e w'
        else (Raises e, w')
    end.

Definition printed (line : string) (w : world) : world :=
  {| reads := reads w; calls := calls w; console := console w ++ [line] |}.

Definition clock_read (w : world) : world :=
  {| reads := S (reads w); calls := calls w; console := console w |}.

Definition issued (r : request) (w : world) : world :=
  {| reads := reads w; calls := calls w ++ [r]; console := console w |}.

Definition print (line : string) : Py unit :=
  fun w => (Returns tt, printed line w).

Section Effects.
Context {RT : Runtime}.

(** [datetime.now(timezone.utc)] *)
Definition datetime_now : Py Z :=
  fun w => (Returns (utcnow (reads w)), clock_read w).

(** [request.execute()]: the request is issued whatever its result *)
Definition remote (r : request) : Py pyval :=
  fun w => (execute (calls w) r, issued r w).
End Effects.

(** ** Operations of the Python data model *)

(** [d[k]] on a [dict] *)
Definition dict_item (d : gmap string pyval) (k : string) : outcome pyval :=
  match d !! k with
  | Some v => Returns v
  | None => Raises (KeyError k)
  end.

(** [v[k]] with a [str] key [k]: only a [dict] accepts it *)
Definition subscript (v : pyval) (k : string) : outcome pyval :=
  match v with
  | PDict d => dict_item d k
  | _ => Raises TypeError
  end.

(** [v.get(k, default)] *)
Definition get_method (v : pyval) (k : string) (default : pyval)
    : outcome pyval :=
  match v with
  | PDict d => Returns (match d !! k with Some x => x | None => default end)
  | _ => Raises AttributeError
  end.

Fixpoint chars (s : string) : list pyval :=
  match s with
  | EmptyString => []
  | String c s' => PStr (String c EmptyString) :: chars s'
  end.

(** [for x in v]: the elements of a list, the keys of a dict, the
    characters of a str *)
Definition iterate (v : pyval) : outcome (list pyval) :=
  match v with
  | PList l => Returns l
  | PDict d => Returns (PStr <$> (map_to_list d).*1)
  | PStr s => Returns (chars s)
  | _ => Raises TypeError
  end.

(** [sep.join(l)]: every element must be a [str] *)
Fixpoint join (sep : string) (l : list pyval) : outcome string :=
  match l with
  | [] => Returns ""
  | PStr s :: l' =>
      match l' with
      | [] => Returns s
      | _ => match join sep l' with
             | Returns t => Returns (s ++ sep ++ t)
             | Raises e => Raises e
             end
      end
  | _ => Raises TypeError
  end.

Fixpoint starts_with (p s : string) : bool :=
  match p, s with
  | EmptyString, _ => true
  | String a p', String b s' => Ascii.eqb a b && starts_with p' s'
  | String _ _, EmptyString => false
  end.

(** [s.replace(old, new)] for a non-empty [old]: occurrences are
    replaced left to right without overlap; [skip] counts the characters
    of an occurrence still to drop. *)
Fixpoint replace_from (skip : nat) (old new s : string) : string :=
  match s with
  | EmptyString => EmptyString
  | String c s' =>
      match skip with
      | S n => replace_from n old new s'
      | O =>
          if starts_with old s
          then new ++ replace_from (String.length old - 1) old new s'
          else String c (replace_from 0 old new s')
      end
  end.

Definition str_replace (old new s : string) : string :=
  replace_from 0 old new s.

(** [v.replace(old, new)] *)
Definition replace_method (v : pyval) (old new : string) : outcome string :=
  match v with
  | PStr s => Returns (str_replace old new s)
  | _ => Raises AttributeError
  end.

Definition Qltb (x y : Q) : bool :=
  match (x ?= y)%Q with Lt => true | _ => false end.

(** The numeric value of an operand of [/], [+] and [*] *)
Definition as_number (v : pyval) : outcome Q :=
  match v with
  | PInt z => Returns (inject_Z z)
  | PBool b => Returns (if b then 1%Q else 0%Q)
  | PFloat q => Returns q
  | _ => Raises TypeError
  end.

(** [int(v)] *)
Definition py_int `{Runtime} (v : pyval) : outcome Z :=
  match v with
  | PInt z => Returns z
  | PBool b => Returns (if b then 1 else 0)%Z
  | PFloat q => Returns (Z.quot (Qnum q) (Z.pos (Qden q)))
  | PStr s =>
      match int_of_str s with
      | Some z => Returns z
      | None => Raises ValueError
      end
  | _ => Raises TypeError
  end.

(** [now - published_at]: the [timedelta], in microseconds *)
Definition datetime_sub (now : Z) (d : datetime) : outcome Z :=
  match d with
  | Aware t => Returns (now - t)%Z
  | Naive _ => Raises TypeError
  end.

(** [delta.total_seconds()] *)
Definition total_seconds (delta : Z) : Q := inject_Z delta / 1000000.

(** ** class YouTubeTrendingFinder *)

Section YouTubeTrendingFinder.
Context {RT : Runtime}.

(** [self.trending_period = timedelta(days=config.TRENDING_PERIOD_DAYS)],
    in microseconds *)
Definition trending_period : Z :=
  (config.TRENDING_PERIOD_DAYS * 86400 * 1000000)%Z.

(** The age of a video in days, [(now - published_at).total_seconds() / 86400] *)
Definition days_between (now published : Z) : Q :=
  total_seconds (now - published) / 86400.

(** One [item["id"]["videoId"]] of the list comprehension *)
Definition video_id_of (item : pyval) : outcome pyval :=
  id <~ subscript item "id" ;;
  subscript id "videoId".

(** [[item["id"]["videoId"] for item in search_response.get("items", [])]] *)
Definition video_ids_of (search_response : pyval) : outcome (list pyval) :=
  items <~ get_method search_response "items" (PList []) ;;
  items <~ iterate items ;;
  traverse video_id_of items.

(** The dictionary display that builds one [video_info]; its entries
    are evaluated in the order they are written. *)
Definition video_info_of (video : pyval) : outcome (gmap string pyval) :=
  id <~ subscript video "id" ;;
  snippet <~ subscript video "snippet" ;;
  title <~ subscript snippet "title" ;;
  snippet <~ subscript video "snippet" ;;
  channel_title <~ subscript snippet "channelTitle" ;;
  snippet <~ subscript video "snippet" ;;
  published_at <~ subscript snippet "publishedAt" ;;
  statistics <~ subscript video "statistics" ;;
  views <~ get_method statistics "viewCount" (PInt 0) ;;
  view_count <~ py_int views ;;
  statistics <~ subscript video "statistics" ;;
  likes <~ get_method statistics "likeCount" (PInt 0) ;;
  like_count <~ py_int likes ;;
  details <~ subscript video "contentDetails" ;;
  duration <~ subscript details "duration" ;;
  id' <~ subscript video "id" ;;
  Returns
    (<["url" := PStr ("https://www.youtube.com/watch?v=" ++ format_value id')]>
     (<["duration" := duration]>
      (<["like_count" := PInt like_count]>
       (<["view_count" := PInt view_count]>
        (<["published_at" := published_at]>
         (<["channel_title" := channel_title]>
          (<["title" := title]>
           (<["video_id" := id]> ∅)))))))).

(** The loop over [videos_response.get("items", [])] *)
Definition video_infos_of (videos_response : pyval)
    : outcome (list (gmap string pyval)) :=
  items <~ get_method videos_response "items" (PList []) ;;
  items <~ iterate items ;;
  traverse video_info_of items.

(** The search request, with [published_after] computed from the clock *)
Definition search_request (keyword : string) (max_results : Z) (now : Z)
    : request :=
  let published_after :=
    str_replace "+00:00" "Z" (isoformat (now - trending_period)) in
  SearchList keyword "id,snippet" "video" max_results "relevance"
             published_after.

Definition videos_request (ids : string) : request :=
  VideosList "statistics,snippet,contentDetails" ids.

(** The body of the [try] block of [search_videos] *)
Definition search_videos_body (keyword : string) (max_results : Z)
    : Py (list (gmap string pyval)) :=
  now <- datetime_now ;;
  search_response <- remote (search_request keyword max_results now) ;;
  video_ids <- lift (video_ids_of search_response) ;;
  match video_ids with
  | [] => ret []
  | _ :: _ =>
      ids <- lift (join "," video_ids) ;;
      videos_response <- remote (videos_request ids) ;;
      lift (video_infos_of videos_response)
  end.

Definition search_videos (keyword : string) (max_results : Z)
    : Py (list (gmap string pyval)) :=
  try_except (search_videos_body keyword max_results)
    (fun e =>
       _ <- print ("YouTube APIエラーが発生しました: " ++ exn_text e) ;;
       ret [])
    (fun e =>
       _ <- print ("エラーが発生しました: " ++ exn_text e) ;;
       ret []).

Definition calculate_trending_score (video : gmap string pyval) : Py pyval :=
  text <- lift (dict_item video "published_at") ;;
  text <- lift (replace_method text "Z" "+00:00") ;;
  published_at <-
    lift (match fromisoformat text with
          | Some d => Returns d
          | None => Raises ValueError
          end) ;;
  now <- datetime_now ;;
  delta <- lift (datetime_sub now published_at) ;;
  let days_since_published := (total_seconds delta / 86400)%Q in
  if Qltb days_since_published 0 then ret (PInt 0)
  else if Qltb (inject_Z config.TRENDING_PERIOD_DAYS) days_since_published
  then ret (PInt 0)
  else
    view_count <- lift (dict_item video "view_count") ;;
    let days_since_published :=
      if Qltb days_since_published 1 then 1%Q else days_since_published in
    count <- lift (as_number view_count) ;;
    let views_per_day := (count / days_since_published)%Q in
    let trending_score := (views_per_day * (1 + count / 10000))%Q in
    ret (PFloat trending_score).

(** The [for] loop of [find_trending_videos]: each dictionary gets its
    [trending_score] entry, in list order *)
Definition attach_scores (videos : list (gmap string pyval))
    : Py (list (gmap string pyval)) :=
  mapM (fun video =>
          score <- calculate_trending_score video ;;
          ret (<["trending_score" := score]> video))
       videos.

(** [v["trending_score"]] as the number the comparisons see *)
Definition score_key (v : gmap string pyval) : outcome Q :=
  s <~ dict_item v "trending_score" ;;
  as_number s.

(** Each record with its key, computed once per record *)
Definition keyed (l : list (gmap string pyval))
    : outcome (list (Q * gmap string pyval)) :=
  traverse (fun v => k <~ score_key v ;; Returns (k, v)) l.

(** [sorted(..., key=..., reverse=True)] is stable: an element goes in
    front of the first one whose key is not strictly greater. *)
Fixpoint insert_desc (x : Q * gmap string pyval)
    (l : list (Q * gmap string pyval)) : list (Q * gmap string pyval) :=
  match l with
  | [] => [x]
  | y :: l' =>
      if Qltb (fst x) (fst y) then y :: insert_desc x l' else x :: y :: l'
  end.

Definition sorted_reverse (l : list (Q * gmap string pyval))
    : list (Q * gmap string pyval) :=
  foldr insert_desc [] l.

(** [sorted([v for v in videos if v["trending_score"] >= m], key=..., reverse=True)] *)
Definition select_trending (min_trending_score : Q)
    (videos : list (gmap string pyval)) : outcome (list (gmap string pyval)) :=
  kl <~ keyed videos ;;
  Returns (snd <$> sorted_reverse
             (filter (fun kv => Qle_bool min_trending_score (fst kv) = true) kl)).

Definition find_trending_videos (keyword : string) (max_results : Z)
    (min_trending_score : Q) : Py (list (gmap string pyval)) :=
  videos <- search_videos keyword max_results ;;
  videos <- attach_scores videos ;;
  lift (select_trending min_trending_score videos).

End YouTubeTrendingFinder.

(** ** format_duration *)

(** [\d], on ASCII text *)
Definition is_digit (c : ascii) : bool :=
  match c with
  | "0" | "1" | "2" | "3" | "4" | "5" | "6" | "7" | "8" | "9" => true
  | _ => false
  end%char.

(** The longest run of digits at the front of [s], and what follows it *)
Fixpoint span_digits (s : string) : string * string :=
  match s with
  | EmptyString => (EmptyString, EmptyString)
  | String c s' =>
      if is_digit c
      then let (ds, rest) := span_digits s' in (String c ds, rest)
      else (EmptyString, s)
  end.

(** One [(?:(\d+)X)?] at the front of [s]: the group and the rest of the
    text.  [\d+] is greedy and a shorter run of digits is followed by a
    digit, never by the letter, so the group matches exactly when the
    longest run is non-empty and the letter follows it; otherwise the
    optional part matches the empty string. *)
Definition optional_group (letter : ascii) (s : string)
    : option string * string :=
  match span_digits s with
  | (String d ds, String c rest) =>
      if Ascii.eqb c letter then (Some (String d ds), rest) else (None, s)
  | _ => (None, s)
  end.

(** [re.match(r'PT(?:(\d+)H)?(?:(\d+)M)?(?:(\d+)S)?', s)]: the three
    groups when the text starts with [PT].  The match is anchored at the
    start only; what follows the last group read is not looked at. *)
Definition re_match (s : string)
    : option (option string * option string * option string) :=
  match s with
  | String "P" (String "T" s1) =>
      let (h, s2) := optional_group "H" s1 in
      let (m, s3) := optional_group "M" s2 in
      let (sec, _) := optional_group "S" s3 in
      Some (h, m, sec)
  | _ => None
  end.

(** [int(group or 0)] for a group of [re_match] *)
Definition group_int (g : option string) : N :=
  match g with
  | None => 0%N
  | Some ds =>
      match NilEmpty.uint_of_string ds with
      | Some u => N.of_uint u
      | None => 0%N
      end
  end.

(** [f"{n}"] for a non-negative [int] *)
Definition decimal (n : N) : string := NilEmpty.string_of_uint (N.to_uint n).

Definition format_parts (hours minutes seconds : N) : list string :=
  (if (0 <? hours)%N then [decimal hours ++ "時間"] else []) ++
  (if (0 <? minutes)%N then [decimal minutes ++ "分"] else []) ++
  (if (0 <? seconds)%N then [decimal seconds ++ "秒"] else []).

Definition format_duration (duration_str : string) : string :=
  match re_match duration_str with
  | None => duration_str
  | Some (h, m, s) =>
      let hours := group_int h in
      let minutes := group_int m in
      let seconds := group_int s in
      match format_parts hours minutes seconds with
      | [] => "0秒"
      | parts => String.concat "" parts
      end
  end.


(** ** display_results and main

    What these two functions take from the terminal, the process
    environment and the formatting library is the class [Terminal]. *)

Class Terminal : Type := {
  (** [config.YOUTUBE_API_KEY], read from the environment at import *)
  YOUTUBE_API_KEY : string;
  (** [googleapiclient.discovery.build("youtube", "v3", developerKey=k)],
      as far as the constructor of the finder is concerned *)
  build : string -> outcome unit;
  (** what [input(prompt)] gives once the prompt is written *)
  input_line : outcome string;
  (** [s.strip()] *)
  strip : string -> string;
  (** [format(v, spec)], as an f-string field [{v:spec}] formats a value *)
  format_spec : pyval -> string -> outcome string;
  (** [d.strftime(fmt)] *)
  strftime : datetime -> string -> outcome string;
  (** the wall clock [datetime.now(None)] shows at its n-th reading *)
  localnow : nat -> Z
}.

Definition newline : string := String "010"%char EmptyString.

(** ["=" * n] *)
Fixpoint rule (n : nat) : string :=
  match n with
  | O => EmptyString
  | S k => String "="%char (rule k)
  end.

(** [f"{z}"] for an [int] *)
Definition decimal_Z (z : Z) : string := NilEmpty.string_of_int (Z.to_int z).

(** [delta.days]: whole days, rounded down *)
Definition timedelta_days (delta : Z) : Z := (delta / 86400000000)%Z.

Definition instant (d : datetime) : Z :=
  match d with Aware t | Naive t => t end.

Section Display.
Context {RT : Runtime} {TM : Terminal}.

(** [datetime.now(d.tzinfo)]: aware like [d], or the naive wall clock *)
Definition datetime_now_like (d : datetime) : Py Z :=
  fun w =>
    (Returns (match d with
              | Aware _ => utcnow (reads w)
              | Naive _ => localnow (reads w)
              end),
     clock_read w).

(** [format_duration(v)]: [re.match] wants a [str] *)
Definition format_duration_of (v : pyval) : outcome string :=
  match v with
  | PStr s => Returns (format_duration s)
  | _ => Raises TypeError
  end.

(** One turn of the loop of [display_results], for the [i]-th record *)
Definition display_record (i : nat) (video : gmap string pyval) : Py unit :=
  text <- lift (dict_item video "published_at") ;;
  text <- lift (replace_method text "Z" "+00:00") ;;
  published_at <-
    lift (match fromisoformat text with
          | Some d => Returns d
          | None => Raises ValueError
          end) ;;
  now <- datetime_now_like published_at ;;
  let days_ago := timedelta_days (now - instant published_at) in
  title <- lift (dict_item video "title") ;;
  _ <- print (decimal (N.of_nat i) ++ ". " ++ format_value title) ;;
  channel <- lift (dict_item video "channel_title") ;;
  _ <- print ("   チャンネル: " ++ format_value channel) ;;
  views <- lift (dict_item video "view_count") ;;
  views <- lift (format_spec views ",") ;;
  _ <- print ("   再生回数: " ++ views ++ "回") ;;
  likes <- lift (dict_item video "like_count") ;;
  likes <- lift (format_spec likes ",") ;;
  _ <- print ("   いいね数: " ++ likes ++ "回") ;;
  date <- lift (strftime published_at "%Y年%m月%d日") ;;
  _ <- print ("   公開日: " ++ date ++ " (" ++ decimal_Z days_ago ++ "日前)") ;;
  duration <- lift (dict_item video "duration") ;;
  duration <- lift (format_duration_of duration) ;;
  _ <- print ("   動画時間: " ++ duration) ;;
  score <- lift (dict_item video "trending_score") ;;
  score <- lift (format_spec score ".2f") ;;
  _ <- print ("   急成長スコア: " ++ score) ;;
  url <- lift (dict_item video "url") ;;
  _ <- print ("   URL: " ++ format_value url) ;;
  print "".

(** [for i, video in enumerate(videos, i): ...] *)
Fixpoint display_from (i : nat) (videos : list (gmap string pyval)) : Py unit :=
  match videos with
  | [] => ret tt
  | video :: rest => _ <- display_record i video ;; display_from (S i) rest
  end.

Definition display_results (videos : list (gmap string pyval)) : Py unit :=
  match videos with
  | [] => print (newline ++ "急成長している動画が見つかりませんでした。")
  | _ :: _ =>
      _ <- print (newline ++ rule 80) ;;
      _ <- print ("急成長している動画: "
                  ++ decimal (N.of_nat (length videos)) ++ "件") ;;
      _ <- print (rule 80 ++ newline) ;;
      display_from 1 videos
  end.

(** [input(prompt)]: the prompt is written, then a line is read *)
Definition input (prompt : string) : Py string :=
  fun w => (input_line, printed prompt w).

Definition main : Py unit :=
  let api_key := YOUTUBE_API_KEY in
  match api_key with
  | EmptyString =>
      _ <- print "エラー: YouTube APIキーが設定されていません。" ;;
      print ".envファイルにYOUTUBE_API_KEYを設定してください。"
  | String _ _ =>
      _ <- lift (build api_key) ;;
      _ <- print "YouTube急成長動画検索システム" ;;
      _ <- print (rule 50) ;;
      typed <- input (newline ++ "検索キーワードを入力してください: ") ;;
      let keyword := strip typed in
      match keyword with
      | EmptyString => print "キーワードが入力されていません。"
      | String _ _ =>
          _ <- print (newline ++ "「" ++ keyword ++ "」で検索中...") ;;
          trending_videos <-
            find_trending_videos keyword config.DEFAULT_MAX_RESULTS 1000 ;;
          display_results trending_videos
      end
  end.

End Display.

(** ** A concrete runtime

    A small fixed service and clock on which the program can be run inside
    Rocq.  The clock starts at 2023-11-14T22:13:20Z and advances by one
    microsecond per reading. *)

Module Demo.

Definition start : Z := 1700000000000000.

Definition obj (l : list (string * pyval)) : pyval := PDict (list_to_map l).

Definition hit (id : string) : pyval :=
  obj [("id", obj [("kind", PStr "youtube#video"); ("videoId", PStr id)])].

Definition detail (id title published : string)
    (statistics : list (string * pyval)) (duration : string) : pyval :=
  obj [("id", PStr id);
       ("snippet", obj [("title", PStr title);
                        ("channelTitle", PStr "Proof Channel");
                        ("publishedAt", PStr published)]);
       ("statistics", obj statistics);
       ("contentDetails", obj [("duration", PStr duration)])].

Definition answer (r : request) : outcome pyval :=
  match r with
  | SearchList q _ _ _ _ _ =>
      if String.eqb q "rocq"
      then Returns (obj [("items", PList [hit "B"; hit "A"; hit "C"; hit "D"])])
      else if String.eqb q "quiet" then Returns (obj [("items", PList [])])
      else if String.eqb q "bare" then Returns (obj [])
      else if String.eqb q "half" then Returns (obj [("items", PList [hit "X"])])
      else if String.eqb q "denied" then Raises (HttpError "403 quotaExceeded")
      else if String.eqb q "down" then Raises (TransportError "timed out")
      else Returns PNone
  | VideosList _ ids =>
      if String.eqb ids "B,A,C,D"
      then Returns (obj [("items", PList [
             detail "B" "Two days old" "2023-11-12T22:13:20Z"
                    [("viewCount", PStr "3000"); ("likeCount", PStr "40")] "PT15M";
             detail "A" "Half a day old" "2023-11-14T10:13:20Z"
                    [("viewCount", PStr "20000"); ("likeCount", PStr "700")] "PT1H2M10S";
             detail "C" "Twenty days old" "2023-10-25T22:13:20Z"
                    [("viewCount", PStr "900000")] "PT45S";
             detail "D" "No statistics" "2023-11-14T10:13:20Z" [] "PT0S"])])
      else Raises (HttpError "500 backendError")
  end.

Definition parse (s : string) : option datetime :=
  if String.eqb s "2023-11-14T22:13:20+00:00" then Some (Aware start)
  else if String.eqb s "2023-11-14T10:13:20+00:00"
  then Some (Aware (start - 43200000000))
  else if String.eqb s "2023-11-12T22:13:20+00:00"
  then Some (Aware (start - 172800000000))
  else if String.eqb s "2023-11-15T10:13:20+00:00"
  then Some (Aware (start + 43200000000))
  else if String.eqb s "2023-10-25T22:13:20+00:00"
  then Some (Aware (start - 1728000000000))
  else if String.eqb s "2023-11-12T22:13:20" then Some (Naive (start - 172800000000))
  else None.

Definition decimal_int (s : string) : option Z :=
  match s with
  | EmptyString => None
  | _ => Z.of_uint <$> NilEmpty.uint_of_string s
  end.

Definition text_of (v : pyval) : string :=
  match v with
  | PStr s => s
  | PInt z => NilEmpty.string_of_int (Z.to_int z)
  | PNone => "None"
  | PBool true => "True"
  | PBool false => "False"
  | _ => "..."
  end.

Definition message (e : pyexn) : string :=
  match e with
  | HttpError r | TransportError r => r
  | KeyError k => "'" ++ k ++ "'"
  | _ => ""
  end.

Definition runtime : Runtime := {|
  utcnow n := (start + Z.of_nat n)%Z;
  execute _ r := answer r;
  fromisoformat := parse;
  isoformat _ := "2023-10-31T22:13:20+00:00";
  int_of_str := decimal_int;
  format_value := text_of;
  exn_text := message
|}.

Definition boot : world := {| reads := 0; calls := []; console := [] |}.

(** A record as [search_videos] builds it *)
Definition record (published : string) (views : Z) : gmap string pyval :=
  list_to_map [("video_id", PStr "A"); ("title", PStr "t");
               ("channel_title", PStr "c"); ("published_at", PStr published);
               ("view_count", PInt views); ("like_count", PInt 0);
               ("duration", PStr "PT1M");
               ("url", PStr "https://www.youtube.com/watch?v=A")].

End Demo.

(** ** A concrete terminal

    It strips ASCII blanks, groups the digits of an [int] by three for
    [","] and writes two decimals for [".2f"]; other values and format
    specifications it refuses. *)

Module DemoTerminal.

Definition is_blank (c : ascii) : bool :=
  match c with
  | " " | "009" | "010" | "011" | "012" | "013" => true
  | _ => false
  end%char.

Fixpoint lstrip (s : string) : string :=
  match s with
  | EmptyString => EmptyString
  | String c s' => if is_blank c then lstrip s' else s
  end.

Definition reversed (s : string) : string :=
  string_of_list_ascii (rev (list_ascii_of_string s)).

Definition strip_blanks (s : string) : string :=
  reversed (lstrip (reversed (lstrip s))).

(** The digits [l], least significant first, with a comma after every
    third one that has a successor *)
Fixpoint grouped (n : nat) (l : list ascii) : list ascii :=
  match l with
  | [] => []
  | c :: l' =>
      match n, l' with
      | 2%nat, _ :: _ => c :: ","%char :: grouped 0 l'
      | _, _ => c :: grouped (S n) l'
      end
  end.

Definition with_commas (z : Z) : string :=
  (if (z <? 0)%Z then "-" else "") ++
  string_of_list_ascii
    (rev (grouped 0 (rev (list_ascii_of_string (decimal_Z (Z.abs z)))))).

(** [q] in hundredths, rounded to the nearest, ties to even *)
Definition hundredths (q : Q) : Z :=
  let n := (Qnum q * 100)%Z in
  let d := Z.pos (Qden q) in
  let f := (n / d)%Z in
  match (2 * (n mod d) ?= d)%Z with
  | Lt => f
  | Gt => (f + 1)%Z
  | Eq => if Z.even f then f else (f + 1)%Z
  end.

Definition two_decimals (q : Q) : string :=
  let h := hundredths q in
  let a := Z.abs h in
  (if (h <? 0)%Z then "-" else "") ++ decimal_Z (a / 100) ++ "." ++
  (if (a mod 100 <? 10)%Z then "0" else "") ++ decimal_Z (a mod 100).

Definition render (v : pyval) (spec : string) : outcome string :=
  match v with
  | PInt z =>
      if String.eqb spec "," then Returns (with_commas z)
      else if String.eqb spec ".2f" then Returns (decimal_Z z ++ ".00")
      else Raises ValueError
  | PFloat q =>
      if String.eqb spec ".2f" then Returns (two_decimals q)
      else Raises ValueError
  | _ => Raises TypeError
  end.

Definition terminal (key typed : string) : Terminal := {|
  YOUTUBE_API_KEY := key;
  build _ := Returns tt;
  input_line := Returns typed;
  strip := strip_blanks;
  format_spec := render;
  strftime _ _ := Returns "2023年11月14日";
  localnow n := (Demo.start + 32400000000 + Z.of_nat n)%Z
|}.

End DemoTerminal.


(** ** Vocabulary of the statements *)

(** The record carries a numeric score, at least [m] *)
Definition scored_at_least (m : Q) (r : gmap string pyval) : Prop :=
  exists q : Q, score_key r = Returns q /\ (m <= q)%Q.

(** As a test: the condition of the list comprehension *)
Definition keeps (m : Q) (r : gmap string pyval) : bool :=
  match score_key r with
  | Returns q => Qle_bool m q
  | Raises _ => false
  end.

(** [a] may stand before [b] in a list ordered by non-increasing score *)
Definition ranks_no_lower (a b : gmap string pyval) : Prop :=
  exists qa qb : Q,
    score_key a = Returns qa /\ score_key b = Returns qb /\ (qb <= qa)%Q.

(** The order of the decorated list: keys non-increasing *)
Definition key_ge (a b : Q * gmap string pyval) : Prop := (b.1 <= a.1)%Q.

(** A decorated entry carries the key of its record *)
Definition key_of_record (kv : Q * gmap string pyval) : Prop :=
  score_key kv.2 = Returns kv.1.

(** The keys of a [video_info] dictionary *)
Definition video_info_keys : gset string :=
  {[ "video_id"; "title"; "channel_title"; "published_at"; "view_count";
     "like_count"; "duration"; "url" ]}.

(** A duration text in hours/minutes/seconds notation, as the spec words
    it: [PT], then the hours, minutes and seconds that are present, each a
    decimal number with its letter. *)
Definition component (n : option N) (letter : string) : string :=
  match n with
  | Some k => decimal k ++ letter
  | None => ""
  end.

Definition hms_text (h m s : option N) : string :=
  "PT" ++ component h "H" ++ component m "M" ++ component s "S".


(** The rendering the spec describes: the non-zero components in order,
    and the marker [0秒] when there is none. *)
Definition unit_text (n : N) (unit : string) : string :=
  if (n =? 0)%N then "" else decimal n ++ unit.

Definition rendered (h m s : N) : string :=
  if ((h =? 0) && (m =? 0) && (s =? 0))%N then "0秒"
  else unit_text h "時間" ++ unit_text m "分" ++ unit_text s "秒".

(** The pattern of [re_match] applied to the whole text: nothing may
    follow the last group. *)
Definition fullmatch (s : string) : bool :=
  match s with
  | String "P" (String "T" s1) =>
      let (_, s2) := optional_group "H" s1 in
      let (_, s3) := optional_group "M" s2 in
      let (_, s4) := optional_group "S" s3 in
      match s4 with EmptyString => true | _ => false end
  | _ => false
  end.

(** The exceptions the operations of the data model raise *)
Definition data_error (e : pyexn) : bool :=
  match e with
  | KeyError _ | TypeError | ValueError | AttributeError => true
  | _ => false
  end.

(** The score as a function of the view count [c] and the age [d] in
    days: what [calculate_trending_score] computes once the record is
    read *)
Definition trending_value (c d : Q) : Q :=
  if Qltb d 0 then 0
  else if Qltb (inject_Z config.TRENDING_PERIOD_DAYS) d then 0
  else c / (if Qltb d 1 then 1 else d) * (1 + c / 10000).

(** The record carries the score [k] *)
Definition has_score (k : Q) (r : gmap string pyval) : bool :=
  match score_key r with
  | Returns q => Qeq_bool q k
  | Raises _ => false
  end.

(** The character [c] does not occur in [s] *)
Fixpoint lacks (c : ascii) (s : string) : bool :=
  match s with
  | EmptyString => true
  | String x s' => negb (Ascii.eqb x c) && lacks c s'
  end.


(** A duration text whose numbers are any non-empty runs of digits,
    leading zeros included *)
Definition digits_component (u : option uint) (letter : string) : string :=
  match u with
  | Some d => NilEmpty.string_of_uint d ++ letter
  | None => ""
  end.

Definition hms_digits (h m s : option uint) : string :=
  "PT" ++ digits_component h "H" ++ digits_component m "M"
       ++ digits_component s "S".

Definition digits_value (u : option uint) : N :=
  match u with
  | Some d => N.of_uint d
  | None => 0%N
  end.

Definition nonempty_digits (u : option uint) : Prop :=
  match u with
  | Some d => d <> Nil
  | None => True
  end.

(** A service whose details response is damaged: the second item of
    ["gap"] has no [snippet], the second item of ["date"] has a
    [publishedAt] that is no timestamp. *)
Module DemoFaulty.

Definition answer (r : request) : outcome pyval :=
  match r with
  | SearchList q _ _ _ _ _ =>
      if String.eqb q "gap" then
        Returns (Demo.obj [("items", PList [Demo.hit "A"; Demo.hit "G"])])
      else if String.eqb q "date" then
        Returns (Demo.obj [("items", PList [Demo.hit "A"; Demo.hit "T"])])
      else Raises KeyboardInterrupt
  | VideosList _ ids =>
      if String.eqb ids "A,G" then
        Returns (Demo.obj [("items", PList [
          Demo.detail "A" "Half a day old" "2023-11-14T10:13:20Z"
                      [("viewCount", PStr "20000")] "PT1H2M10S";
          Demo.obj [("id", PStr "G");
                    ("statistics", Demo.obj [("viewCount", PStr "7")]);
                    ("contentDetails", Demo.obj [("duration", PStr "PT5S")])]])])
      else if String.eqb ids "A,T" then
        Returns (Demo.obj [("items", PList [
          Demo.detail "A" "Half a day old" "2023-11-14T10:13:20Z"
                      [("viewCount", PStr "20000")] "PT1H2M10S";
          Demo.detail "T" "Undated" "yesterday"
                      [("viewCount", PStr "500000")] "PT5S"])])
      else Raises KeyboardInterrupt
  end.

Definition runtime : Runtime := {|
  utcnow n := (Demo.start + Z.of_nat n)%Z;
  execute _ r := answer r;
  fromisoformat := Demo.parse;
  isoformat _ := "2023-10-31T22:13:20+00:00";
  int_of_str := Demo.decimal_int;
  format_value := Demo.text_of;
  exn_text := Demo.message
|}.

(** The record built from the item ["T"] *)
Definition undated : gmap string pyval :=
  list_to_map [("video_id", PStr "T"); ("title", PStr "Undated");
               ("channel_title", PStr "Proof Channel");
               ("published_at", PStr "yesterday");
               ("view_count", PInt 500000); ("like_count", PInt 0);
               ("duration", PStr "PT5S");
               ("url", PStr "https://www.youtube.com/watch?v=T")].

End DemoFaulty.

(** * Properties *)

(** ** Comparisons on [Q] *)

Lemma Qltb_true (x y : Q) : Qltb x y = true <-> (x < y)%Q.
Proof.
  unfold Qltb. rewrite Qlt_alt.
  destruct (x ?= y)%Q; split; intros E; congruence.
Qed.

Lemma Qltb_false (x y : Q) : Qltb x y = false <-> (y <= x)%Q.
Proof.
  split; intros E.
  - apply Qnot_lt_le. intros L. apply Qltb_true in L. congruence.
  - destruct (Qltb x y) eqn:L; [|reflexivity].
    apply Qltb_true in L. exfalso. exact (Qlt_not_le _ _ L E).
Qed.



(** ** The three paths of [calculate_trending_score] *)

Section Score.
Context {RT : Runtime}.
Variables (video : gmap string pyval) (w : world) (s : string) (t : Z).
Hypothesis published : video !! "published_at" = Some (PStr s).
Hypothesis parsed : fromisoformat (str_replace "Z" "+00:00" s) = Some (Aware t).

Local Abbreviation d := (days_between (utcnow (reads w)) t).

Lemma score_future :
  (d < 0)%Q -> calculate_trending_score video w = (Returns (PInt 0), clock_read w).
Proof.
  intros L. apply Qltb_true in L.
  unfold calculate_trending_score, bind, lift, dict_item, datetime_now.
  rewrite published. cbn [replace_method]. rewrite parsed. cbn [datetime_sub].
  fold (days_between (utcnow (reads w)) t). now rewrite L.
Qed.

Lemma score_stale :
  (inject_Z config.TRENDING_PERIOD_DAYS < d)%Q ->
  calculate_trending_score video w = (Returns (PInt 0), clock_read w).
Proof.
  intros L. apply Qltb_true in L.
  unfold calculate_trending_score, bind, lift, dict_item, datetime_now.
  rewrite published. cbn [replace_method]. rewrite parsed. cbn [datetime_sub].
  fold (days_between (utcnow (reads w)) t). rewrite L.
  now destruct (Qltb d 0).
Qed.

Lemma score_fresh (x : pyval) (c : Q) :
  (0 <= d)%Q -> (d <= inject_Z config.TRENDING_PERIOD_DAYS)%Q ->
  video !! "view_count" = Some x -> as_number x = Returns c ->
  calculate_trending_score video w =
    (Returns (PFloat (c / (if Qltb d 1 then 1 else d) * (1 + c / 10000))),
     clock_read w).
Proof.
  intros L0 L14 Hx Hc. apply Qltb_false in L0, L14.
  unfold calculate_trending_score, bind, lift, dict_item, datetime_now.
  rewrite published. cbn [replace_method]. rewrite parsed. cbn [datetime_sub].
  fold (days_between (utcnow (reads w)) t).
  now rewrite L0, L14, Hx, Hc.
Qed.

End Score.



(** ** The trending score *)



(** C2: a record published in the future (age below 0) or more than
    [TRENDING_PERIOD_DAYS] days ago scores exactly 0. *)
Theorem calculate_trending_score_outside_window `{Runtime}
    (video : gmap string pyval) (w : world) (s : string) (t : Z) :
  video !! "published_at" = Some (PStr s) ->
  fromisoformat (str_replace "Z" "+00:00" s) = Some (Aware t) ->
  (days_between (utcnow (reads w)) t < 0)%Q \/
  (inject_Z config.TRENDING_PERIOD_DAYS < days_between (utcnow (reads w)) t)%Q ->
  (calculate_trending_score video w).1 = Returns (PInt 0).
Proof.
  intros Hp Hf [L | L].
  - now rewrite (score_future video w s t Hp Hf L).
  - now rewrite (score_stale video w s t Hp Hf L).
Qed.

Lemma calculate_trending_score_outside_window_witness :
  (@calculate_trending_score Demo.runtime
     (Demo.record "2023-10-25T22:13:20Z" 900000) Demo.boot).1 = Returns (PInt 0).
Proof.
  apply (@calculate_trending_score_outside_window Demo.runtime
           (Demo.record "2023-10-25T22:13:20Z" 900000) Demo.boot
           "2023-10-25T22:13:20Z" (Demo.start - 1728000000000)).
  - reflexivity.
  - reflexivity.
  - right. vm_compute. reflexivity.
Defined.





(** C8: a record with 20000 views aged less than one day (so that the
    divisor is the floor 1) scores 20000 * (1 + 2) = 60000. *)
Theorem calculate_trending_score_same_day_20000 `{Runtime}
    (video : gmap string pyval) (w : world) (s : string) (t : Z) :
  video !! "published_at" = Some (PStr s) ->
  fromisoformat (str_replace "Z" "+00:00" s) = Some (Aware t) ->
  video !! "view_count" = Some (PInt 20000) ->
  (0 <= days_between (utcnow (reads w)) t)%Q ->
  (days_between (utcnow (reads w)) t < 1)%Q ->
  exists score : Q,
    (calculate_trending_score video w).1 = Returns (PFloat score) /\
    score == 60000.
Proof.
  intros Hp Hf Hv L0 L1.
  assert (days_between (utcnow (reads w)) t
          <= inject_Z config.TRENDING_PERIOD_DAYS)%Q as L14.
  { apply Qlt_le_weak. eapply Qlt_trans; [exact L1|]. reflexivity. }
  eexists. split.
  - now rewrite (score_fresh video w s t Hp Hf (PInt 20000) 20000 L0 L14 Hv).
  - apply Qltb_true in L1. rewrite L1. reflexivity.
Qed.

Lemma calculate_trending_score_same_day_20000_witness :
  exists score : Q,
    (@calculate_trending_score Demo.runtime
       (Demo.record "2023-11-14T22:13:20Z" 20000) Demo.boot).1
      = Returns (PFloat score) /\
    score == 60000.
Proof.
  apply (@calculate_trending_score_same_day_20000 Demo.runtime
           (Demo.record "2023-11-14T22:13:20Z" 20000) Demo.boot
           "2023-11-14T22:13:20Z" Demo.start).
  - reflexivity.
  - reflexivity.
  - reflexivity.
  - vm_compute. discriminate.
  - vm_compute. reflexivity.
Defined.

(** ** The query client *)

Section Query.
Context {RT : Runtime}.
Variables (keyword : string) (max_results : Z) (w : world).

Local Abbreviation request1 :=
  (search_request keyword max_results (utcnow (reads w))).
Local Abbreviation w1 := (issued request1 (clock_read w)).

Lemma body_search_raises (e : pyexn) :
  execute (calls w) request1 = Raises e ->
  search_videos_body keyword max_results w = (Raises e, w1).
Proof.
  intros E. unfold search_videos_body, bind, datetime_now, remote.
  cbn [calls clock_read]. now rewrite E.
Qed.

Lemma body_no_ids (response : pyval) :
  execute (calls w) request1 = Returns response ->
  video_ids_of response = Returns [] ->
  search_videos_body keyword max_results w = (Returns [], w1).
Proof.
  intros E Hids. unfold search_videos_body, bind, datetime_now, remote, lift.
  cbn [calls clock_read]. now rewrite E, Hids.
Qed.

Lemma body_details_raises (response : pyval) (ids : list pyval)
    (joined : string) (e : pyexn) :
  execute (calls w) request1 = Returns response ->
  video_ids_of response = Returns ids ->
  ids <> [] ->
  join "," ids = Returns joined ->
  execute (calls w ++ [request1]) (videos_request joined) = Raises e ->
  search_videos_body keyword max_results w =
    (Raises e, issued (videos_request joined) w1).
Proof.
  intros E Hids Hne Hjoin E2.
  unfold search_videos_body, bind, datetime_now, remote, lift.
  cbn [calls clock_read]. rewrite E, Hids.
  destruct ids as [|i ids]; [congruence|].
  rewrite Hjoin. unfold issued at 1. cbn [calls clock_read]. now rewrite E2.
Qed.

Lemma body_details_return (response : pyval) (ids : list pyval)
    (joined : string) (details : pyval) :
  execute (calls w) request1 = Returns response ->
  video_ids_of response = Returns ids ->
  ids <> [] ->
  join "," ids = Returns joined ->
  execute (calls w ++ [request1]) (videos_request joined) = Returns details ->
  search_videos_body keyword max_results w =
    (video_infos_of details, issued (videos_request joined) w1).
Proof.
  intros E Hids Hne Hjoin E2.
  unfold search_videos_body, bind, datetime_now, remote, lift.
  cbn [calls clock_read]. rewrite E, Hids.
  destruct ids as [|i ids]; [congruence|].
  rewrite Hjoin. unfold issued at 1. cbn [calls clock_read]. now rewrite E2.
Qed.

(** What the handlers of [search_videos] make of an exception *)
Lemma search_videos_handles (e : pyexn) (w' : world) :
  search_videos_body keyword max_results w = (Raises e, w') ->
  is_Exception e = true ->
  exists line : string, search_videos keyword max_results w = (Returns [], printed line w').
Proof.
  intros E Hexn. unfold search_videos, try_except. rewrite E.
  destruct (is_HttpError e); [|rewrite Hexn]; eexists; reflexivity.
Qed.

End Query.

(** C5: when the search call or the batch details call raises an error
    (any exception deriving from [Exception]: transport, protocol or API),
    [search_videos] returns the empty list and raises nothing. *)
Theorem search_videos_swallows_remote_errors `{Runtime}
    (keyword : string) (max_results : Z) (w : world) (e : pyexn) :
  is_Exception e = true ->
  execute (calls w) (search_request keyword max_results (utcnow (reads w)))
    = Raises e \/
  (exists (response : pyval) (ids : list pyval) (joined : string),
     execute (calls w) (search_request keyword max_results (utcnow (reads w)))
       = Returns response /\
     video_ids_of response = Returns ids /\
     ids <> [] /\
     join "," ids = Returns joined /\
     execute (calls w ++ [search_request keyword max_results (utcnow (reads w))])
             (videos_request joined) = Raises e) ->
  (search_videos keyword max_results w).1 = Returns [].
Proof.
  intros Hexn [E | (response & ids & joined & E & Hids & Hne & Hjoin & E2)].
  - destruct (search_videos_handles keyword max_results w e _
                (body_search_raises keyword max_results w e E) Hexn) as [line ->].
    reflexivity.
  - destruct (search_videos_handles keyword max_results w e _
                (body_details_raises keyword max_results w response ids joined e
                   E Hids Hne Hjoin E2) Hexn) as [line ->].
    reflexivity.
Qed.

Lemma search_videos_swallows_remote_errors_witness :
  (@search_videos Demo.runtime "down" 50 Demo.boot).1 = Returns [] /\
  (@search_videos Demo.runtime "half" 50 Demo.boot).1 = Returns [].
Proof.
  split.
  - apply (@search_videos_swallows_remote_errors Demo.runtime "down" 50 Demo.boot
             (TransportError "timed out")).
    + reflexivity.
    + left. reflexivity.
  - apply (@search_videos_swallows_remote_errors Demo.runtime "half" 50 Demo.boot
             (HttpError "500 backendError")).
    + reflexivity.
    + right. exists (Demo.obj [("items", PList [Demo.hit "X"])]), [PStr "X"], "X".
      repeat split; try reflexivity. discriminate.
Defined.

(** C6: when the search response yields no video identifier,
    [search_videos] returns the empty list at once: the search request is
    the only request issued, and nothing is printed. *)
Theorem search_videos_no_ids_single_call `{Runtime}
    (keyword : string) (max_results : Z) (w : world) (response : pyval) :
  execute (calls w) (search_request keyword max_results (utcnow (reads w)))
    = Returns response ->
  video_ids_of response = Returns [] ->
  (search_videos keyword max_results w).1 = Returns [] /\
  calls (search_videos keyword max_results w).2
    = (calls w ++ [search_request keyword max_results (utcnow (reads w))])%list /\
  console (search_videos keyword max_results w).2 = console w.
Proof.
  intros E Hids. unfold search_videos, try_except.
  rewrite (body_no_ids keyword max_results w response E Hids).
  repeat split.
Qed.

Lemma search_videos_no_ids_single_call_witness :
  (@search_videos Demo.runtime "quiet" 50 Demo.boot).1 = Returns [] /\
  calls (@search_videos Demo.runtime "quiet" 50 Demo.boot).2
    = [@search_request Demo.runtime "quiet" 50 Demo.start] /\
  console (@search_videos Demo.runtime "quiet" 50 Demo.boot).2 = [].
Proof.
  apply (@search_videos_no_ids_single_call Demo.runtime "quiet" 50 Demo.boot
           (Demo.obj [("items", PList [])])).
  - reflexivity.
  - reflexivity.
Defined.

(** ** The ranker *)

Section Traverse.
Context {A B : Type} (f : A -> outcome B).

Lemma traverse_Forall2 (l : list A) (l' : list B) :
  traverse f l = Returns l' -> Forall2 (fun x y => f x = Returns y) l l'.
Proof.
  revert l'. induction l as [|x l IH]; intros l'; cbn [traverse and_then].
  - intros [= <-]. constructor.
  - destruct (f x) as [y|] eqn:Hx; cbn [and_then]; [|discriminate].
    destruct (traverse f l) as [ys|]; cbn [and_then]; [|discriminate].
    intros [= <-]. constructor; auto.
Qed.
End Traverse.

Section Sorting.

Lemma insert_desc_perm x l : insert_desc x l ≡ₚ x :: l.
Proof.
  induction l as [|y l IH]; cbn [insert_desc]; [reflexivity|].
  destruct (Qltb x.1 y.1); [|reflexivity].
  rewrite IH. apply Permutation_swap.
Qed.

Lemma sorted_reverse_perm l : sorted_reverse l ≡ₚ l.
Proof.
  induction l as [|x l IH]; cbn [sorted_reverse foldr]; [reflexivity|].
  fold (sorted_reverse l). now rewrite insert_desc_perm, IH.
Qed.

Lemma insert_desc_sorted x l :
  StronglySorted key_ge l -> StronglySorted key_ge (insert_desc x l).
Proof.
  induction l as [|y l IH]; cbn [insert_desc]; intros Hs.
  - repeat constructor.
  - apply StronglySorted_inv in Hs as [Hl Hy].
    destruct (Qltb x.1 y.1) eqn:E.
    + apply Qltb_true in E. constructor; [now apply IH|].
      rewrite insert_desc_perm. constructor; [|exact Hy].
      now apply Qlt_le_weak.
    + apply Qltb_false in E. constructor; [now constructor|].
      constructor; [exact E|].
      eapply Forall_impl; [exact Hy|].
      intros z Hz. unfold key_ge in *. now apply (Qle_trans _ y.1).
Qed.

Lemma sorted_reverse_sorted l : StronglySorted key_ge (sorted_reverse l).
Proof.
  induction l as [|x l IH]; cbn [sorted_reverse foldr]; [constructor|].
  now apply insert_desc_sorted.
Qed.

(** Records with equal keys keep the order they came in *)
Example sorted_reverse_stable (a b c : gmap string pyval) :
  sorted_reverse [(1%Q, a); (2%Q, b); (1%Q, c)] = [(2%Q, b); (1%Q, a); (1%Q, c)].
Proof. reflexivity. Qed.

Lemma StronglySorted_with {T : Type} (R : relation T) (P : T -> Prop) l :
  StronglySorted R l -> Forall P l ->
  StronglySorted (fun a b => R a b /\ P a /\ P b) l.
Proof.
  induction 1 as [|a l Hs IH Ha]; intros HP; [constructor|].
  apply Forall_cons in HP as [Pa Pl]. constructor; [now apply IH|].
  apply Forall_forall. intros b Hb.
  rewrite Forall_forall in Ha, Pl. auto.
Qed.

Lemma keyed_spec l kl :
  keyed l = Returns kl ->
  Forall2 (fun v kv => score_key v = Returns kv.1 /\ kv.2 = v) l kl.
Proof.
  intros Hk. apply traverse_Forall2 in Hk.
  eapply Forall2_impl; [exact Hk|].
  intros v kv. cbn beta.
  destruct (score_key v) as [q|]; cbn [and_then]; [|discriminate].
  now intros [= <-].
Qed.

Lemma keyed_key_of_record l kl :
  Forall2 (fun v kv => score_key v = Returns kv.1 /\ kv.2 = v) l kl ->
  Forall key_of_record kl.
Proof.
  induction 1 as [|v kv l kl [Hk Hv] _ IH]; constructor; [|exact IH].
  unfold key_of_record. now rewrite Hv.
Qed.

Lemma filter_keyed m l kl :
  Forall2 (fun v kv => score_key v = Returns kv.1 /\ kv.2 = v) l kl ->
  (filter (fun kv => Qle_bool m kv.1 = true) kl).*2
  = filter (fun v => keeps m v = true) l.
Proof.
  induction 1 as [|v kv l kl [Hk Hv] _ IH]; [reflexivity|].
  assert (keeps m v = Qle_bool m kv.1) as Hkeep
    by (unfold keeps; now rewrite Hk).
  rewrite !filter_cons.
  destruct (decide (Qle_bool m kv.1 = true)) as [E|E].
  - rewrite decide_True by congruence. cbn. now rewrite IH, Hv.
  - rewrite decide_False by congruence. exact IH.
Qed.

Lemma select_trending_spec m scored out :
  select_trending m scored = Returns out ->
  out ≡ₚ filter (fun v => keeps m v = true) scored /\
  StronglySorted ranks_no_lower out.
Proof.
  unfold select_trending.
  destruct (keyed scored) as [kl|] eqn:Hk; cbn [and_then]; [|discriminate].
  intros [= <-]. apply keyed_spec in Hk. split.
  - rewrite sorted_reverse_perm. now rewrite (filter_keyed m scored kl Hk).
  - set (kept := filter _ kl).
    assert (Forall key_of_record (sorted_reverse kept)) as Hkept.
    { rewrite sorted_reverse_perm. apply Forall_forall. intros kv Hin.
      apply list_elem_of_filter in Hin as [_ Hin].
      pose proof (keyed_key_of_record scored kl Hk) as Hall.
      rewrite Forall_forall in Hall. now apply Hall. }
    eapply StronglySorted_fmap;
      [|exact (StronglySorted_with key_ge key_of_record _
                 (sorted_reverse_sorted kept) Hkept)].
    intros x y (Hge & Hx & Hy). exists x.1, y.1. auto.
Qed.

Lemma keeps_scored_at_least m r : keeps m r = true <-> scored_at_least m r.
Proof.
  unfold keeps, scored_at_least. split.
  - destruct (score_key r) as [q|]; [|discriminate].
    intros E. exists q. split; [reflexivity|]. now apply Qle_bool_iff.
  - intros (q & -> & Hq). now apply Qle_bool_iff.
Qed.

End Sorting.

Section Ranker.
Context {RT : Runtime}.

Lemma attach_scores_spec videos w scored w' :
  attach_scores videos w = (Returns scored, w') ->
  Forall2 (fun v r => exists (score : pyval) (wv : world),
             (calculate_trending_score v wv).1 = Returns score /\
             r = <["trending_score" := score]> v)
          videos scored.
Proof.
  unfold attach_scores. revert w scored w'.
  induction videos as [|v videos IH]; intros w scored w'; cbn [mapM].
  - unfold ret. intros [= <- _]. constructor.
  - unfold bind at 1 2.
    destruct (calculate_trending_score v w) as [[score|e] w1] eqn:Hs;
      [|discriminate].
    unfold ret at 1. unfold bind.
    destruct (mapM _ videos w1) as [[rest|e] w2] eqn:Hrest; [|discriminate].
    unfold ret. intros [= <- <-]. constructor; [|now apply (IH w1 rest w2)].
    exists score, w. now rewrite Hs.
Qed.

Lemma find_trending_videos_inv keyword max_results m w out :
  (find_trending_videos keyword max_results m w).1 = Returns out ->
  exists videos w1 scored w2,
    search_videos keyword max_results w = (Returns videos, w1) /\
    attach_scores videos w1 = (Returns scored, w2) /\
    select_trending m scored = Returns out.
Proof.
  unfold find_trending_videos, bind, lift.
  destruct (search_videos keyword max_results w) as [[videos|e] w1];
    [|discriminate].
  destruct (attach_scores videos w1) as [[scored|e] w2] eqn:Ha; [|discriminate].
  cbn [fst]. intros Hsel. now exists videos, w1, scored, w2.
Qed.

Lemma video_info_of_dom video v :
  video_info_of video = Returns v -> dom v = video_info_keys.
Proof.
  unfold video_info_of.
  repeat match goal with
         | |- and_then ?o _ = _ -> _ =>
             destruct o; cbn [and_then]; [|discriminate]
         end.
  intros [= <-]. rewrite !dom_insert_L, dom_empty_L.
  unfold video_info_keys. set_solver.
Qed.

Lemma search_videos_body_returns keyword max_results w videos w' :
  search_videos_body keyword max_results w = (Returns videos, w') ->
  videos = [] \/ exists details, video_infos_of details = Returns videos.
Proof.
  unfold search_videos_body, bind, datetime_now, remote, lift, ret.
  destruct (execute _ _) as [response|]; [|discriminate].
  destruct (video_ids_of response) as [[|i ids]|]; [| |discriminate].
  - intros [= <- _]. now left.
  - destruct (join "," (i :: ids)) as [joined|]; [|discriminate].
    destruct (execute _ _) as [details|]; [|discriminate].
    intros [= E _]. right. now exists details.
Qed.

Lemma search_videos_dom keyword max_results w videos w' :
  search_videos keyword max_results w = (Returns videos, w') ->
  Forall (fun v => dom v = video_info_keys) videos.
Proof.
  unfold search_videos, try_except.
  destruct (search_videos_body keyword max_results w) as [[vs|e] w1] eqn:Hb.
  - intros [= <- _].
    apply search_videos_body_returns in Hb as [-> | [details Hd]];
      [constructor|].
    unfold video_infos_of in Hd.
    destruct (get_method details "items" (PList [])) as [items|];
      cbn [and_then] in Hd; [|discriminate].
    destruct (iterate items) as [l|]; cbn [and_then] in Hd; [|discriminate].
    apply traverse_Forall2 in Hd.
    apply Forall_forall. intros v Hv.
    apply list_elem_of_lookup in Hv as [i Hi].
    destruct (Forall2_lookup_r _ _ _ _ _ Hd Hi) as (x & _ & Hx).
    now apply video_info_of_dom in Hx.
  - unfold bind, print, ret.
    destruct (is_HttpError e); [|destruct (is_Exception e)];
      intros [= <- _]; constructor.
Qed.

End Ranker.

(** C3: the list [find_trending_videos] returns holds no record scored
    below [min_trending_score], is ordered by non-increasing score, and
    holds every record of the scored search result whose score is at
    least [min_trending_score]. *)
Theorem find_trending_videos_ranked `{Runtime}
    (keyword : string) (max_results : Z) (min_trending_score : Q)
    (w : world) (out : list (gmap string pyval)) :
  (find_trending_videos keyword max_results min_trending_score w).1
    = Returns out ->
  Forall (scored_at_least min_trending_score) out /\
  StronglySorted ranks_no_lower out /\
  exists videos w1 scored w2,
    search_videos keyword max_results w = (Returns videos, w1) /\
    attach_scores videos w1 = (Returns scored, w2) /\
    Forall2 (fun v r => exists score, r = <["trending_score" := score]> v)
            videos scored /\
    forall r, r ∈ scored -> scored_at_least min_trending_score r -> r ∈ out.
Proof.
  intros Hrun.
  apply find_trending_videos_inv in Hrun
    as (videos & w1 & scored & w2 & Hsearch & Hattach & Hsel).
  apply select_trending_spec in Hsel as [Hperm Hsorted].
  split; [|split; [exact Hsorted|]].
  - apply Forall_forall. intros r Hr. rewrite Hperm in Hr.
    apply list_elem_of_filter in Hr as [Hr _].
    now apply keeps_scored_at_least.
  - exists videos, w1, scored, w2. repeat split; [exact Hsearch|exact Hattach| |].
    + eapply Forall2_impl; [exact (attach_scores_spec _ _ _ _ Hattach)|].
      intros v r (score & _ & _ & ->). now exists score.
    + intros r Hr Hscore. rewrite Hperm.
      apply list_elem_of_filter. split; [|exact Hr].
      now apply keeps_scored_at_least.
Qed.

Lemma find_trending_videos_ranked_witness :
  match (@find_trending_videos Demo.runtime "rocq" 50 1000 Demo.boot).1 with
  | Returns out =>
      (fun r => r !! "video_id") <$> out = [Some (PStr "A"); Some (PStr "B")] /\
      Forall (scored_at_least 1000) out /\
      StronglySorted ranks_no_lower out
  | Raises _ => False
  end.
Proof.
  assert (match (@find_trending_videos Demo.runtime "rocq" 50 1000 Demo.boot).1 with
          | Returns l => (fun r => r !! "video_id") <$> l
          | Raises _ => []
          end = [Some (PStr "A"); Some (PStr "B")]) as Hids
    by (vm_compute; reflexivity).
  revert Hids.
  destruct (@find_trending_videos Demo.runtime "rocq" 50 1000 Demo.boot).1
    as [out|e] eqn:Hrun; intros Hids.
  - split; [exact Hids|].
    destruct (@find_trending_videos_ranked Demo.runtime "rocq" 50 1000
                Demo.boot out Hrun) as (Hmin & Hsorted & _).
    now split.
  - discriminate.
Defined.

(** C10: every record [find_trending_videos] returns is a record of the
    search result of the same call with the one entry [trending_score]
    added; its eight other entries are as [search_videos] built them. *)
Theorem find_trending_videos_adds_one_field `{Runtime}
    (keyword : string) (max_results : Z) (min_trending_score : Q)
    (w : world) (out : list (gmap string pyval)) :
  (find_trending_videos keyword max_results min_trending_score w).1
    = Returns out ->
  exists videos,
    (search_videos keyword max_results w).1 = Returns videos /\
    forall r, r ∈ out ->
      exists v score,
        v ∈ videos /\
        dom v = video_info_keys /\
        v !! "trending_score" = None /\
        r = <["trending_score" := score]> v /\
        dom r = video_info_keys ∪ {["trending_score"]} /\
        forall k, k <> "trending_score" -> r !! k = v !! k.
Proof.
  intros Hrun.
  apply find_trending_videos_inv in Hrun
    as (videos & w1 & scored & w2 & Hsearch & Hattach & Hsel).
  exists videos. split; [now rewrite Hsearch|].
  intros r Hr.
  apply select_trending_spec in Hsel as [Hperm _].
  rewrite Hperm in Hr. apply list_elem_of_filter in Hr as [_ Hr].
  apply list_elem_of_lookup in Hr as [i Hi].
  destruct (Forall2_lookup_r _ _ _ _ _ (attach_scores_spec _ _ _ _ Hattach) Hi)
    as (v & Hv & score & _ & _ & ->).
  pose proof (search_videos_dom _ _ _ _ _ Hsearch) as Hdom.
  rewrite Forall_forall in Hdom.
  assert (v ∈ videos) as Hin by (apply list_elem_of_lookup; eauto).
  specialize (Hdom v Hin).
  exists v, score. repeat split; [exact Hin|exact Hdom| | | ].
  - apply not_elem_of_dom. rewrite Hdom. unfold video_info_keys.
    vm_compute. set_solver.
  - rewrite dom_insert_L, Hdom. set_solver.
  - intros k Hk. now apply lookup_insert_ne.
Qed.

Lemma find_trending_videos_adds_one_field_witness :
  match (@find_trending_videos Demo.runtime "rocq" 50 1000 Demo.boot).1 with
  | Returns out =>
      length out = 2%nat /\
      exists videos,
        (@search_videos Demo.runtime "rocq" 50 Demo.boot).1 = Returns videos /\
        forall r, r ∈ out ->
          exists v score,
            v ∈ videos /\
            dom v = video_info_keys /\
            v !! "trending_score" = None /\
            r = <["trending_score" := score]> v /\
            dom r = video_info_keys ∪ {["trending_score"]} /\
            forall k, k <> "trending_score" -> r !! k = v !! k
  | Raises _ => False
  end.
Proof.
  assert (match (@find_trending_videos Demo.runtime "rocq" 50 1000 Demo.boot).1 with
          | Returns l => length l
          | Raises _ => 0%nat
          end = 2%nat) as Hlen
    by (vm_compute; reflexivity).
  revert Hlen.
  destruct (@find_trending_videos Demo.runtime "rocq" 50 1000 Demo.boot).1
    as [out|e] eqn:Hrun; intros Hlen.
  - split; [exact Hlen|].
    exact (@find_trending_videos_adds_one_field Demo.runtime "rocq" 50 1000
             Demo.boot out Hrun).
  - discriminate.
Defined.

(** ** The duration formatter *)

Section Duration.

Lemma append_empty (t : string) : "" ++ t = t.
Proof. reflexivity. Qed.

Lemma append_String (c : ascii) (s t : string) :
  String c s ++ t = String c (s ++ t).
Proof. reflexivity. Qed.

Lemma span_digits_uint (u : uint) (c : ascii) (rest : string) :
  is_digit c = false ->
  span_digits (NilEmpty.string_of_uint u ++ String c rest)
  = (NilEmpty.string_of_uint u, String c rest).
Proof.
  intros Hc. induction u as [|u IH|u IH|u IH|u IH|u IH|u IH|u IH|u IH|u IH|u IH];
    cbn [NilEmpty.string_of_uint];
    rewrite ?append_empty, ?append_String; cbn [span_digits];
    [now rewrite Hc|..]; rewrite IH; reflexivity.
Qed.

Lemma decimal_head (n : N) :
  exists (d : ascii) (ds : string), decimal n = String d ds /\ is_digit d = true.
Proof.
  unfold decimal.
  assert (N.to_uint n <> Nil) as Hnil.
  { destruct n as [|p]; [discriminate|]. apply Unsigned.to_uint_nonnil. }
  destruct (N.to_uint n); [congruence|..];
    cbn [NilEmpty.string_of_uint]; eexists _, _; split; reflexivity.
Qed.


(** The group is read when its letter follows the digits *)
Lemma optional_group_read (letter : ascii) (n : N) (rest : string) :
  is_digit letter = false ->
  optional_group letter (decimal n ++ String letter rest)
  = (Some (decimal n), rest).
Proof.
  intros Hl. unfold optional_group, decimal.
  rewrite span_digits_uint by exact Hl.
  destruct (decimal_head n) as (d & ds & Hd & _). unfold decimal in Hd.
  rewrite Hd. now rewrite Ascii.eqb_refl.
Qed.

(** The group is skipped when another letter follows the digits *)
Lemma optional_group_skip (letter other : ascii) (n : N) (rest : string) :
  is_digit other = false -> Ascii.eqb other letter = false ->
  optional_group letter (decimal n ++ String other rest)
  = (None, decimal n ++ String other rest).
Proof.
  intros Ho Hne. unfold optional_group, decimal.
  rewrite span_digits_uint by exact Ho.
  destruct (NilEmpty.string_of_uint (N.to_uint n)); [reflexivity|].
  now rewrite Hne.
Qed.

End Duration.

Section DurationText.

Lemma append_empty_r (t : string) : t ++ "" = t.
Proof. induction t as [|c t IH]; [reflexivity|]. now rewrite append_String, IH. Qed.

Lemma append_assoc (a b c : string) : (a ++ b) ++ c = a ++ (b ++ c).
Proof.
  induction a as [|x a IH]; [reflexivity|]. now rewrite !append_String, IH.
Qed.

(** On a well-formed text the pattern reads the components written *)
Lemma re_match_hms_text (h m s : option N) :
  re_match (hms_text h m s) = Some (decimal <$> h, decimal <$> m, decimal <$> s) /\
  fullmatch (hms_text h m s) = true.
Proof.
  unfold hms_text, component, re_match, fullmatch.
  destruct h as [h|], m as [m|], s as [s|];
    rewrite ?append_assoc, ?append_String, ?append_empty, ?append_empty_r;
    repeat first [ rewrite optional_group_read by reflexivity
                 | rewrite optional_group_skip by reflexivity ];
    split; reflexivity.
Qed.

Lemma ltb_0_eqb (n : N) : (0 <? n)%N = negb (n =? 0)%N.
Proof. now destruct n. Qed.

(** The parts the code joins are the rendering the spec describes *)
Lemma format_parts_rendered (h m s : N) :
  match format_parts h m s with
  | [] => "0秒"
  | parts => String.concat "" parts
  end = rendered h m s.
Proof.
  unfold format_parts, rendered, unit_text. rewrite !ltb_0_eqb.
  destruct (h =? 0)%N, (m =? 0)%N, (s =? 0)%N; cbn;
    rewrite ?append_empty, ?append_empty_r; reflexivity.
Qed.

Lemma format_duration_rendered (t : string) g1 g2 g3 :
  re_match t = Some (g1, g2, g3) ->
  format_duration t = rendered (group_int g1) (group_int g2) (group_int g3).
Proof.
  intros E. unfold format_duration. rewrite E. apply format_parts_rendered.
Qed.

Lemma rendered_head (h m s : N) :
  exists (d : ascii) (ds : string),
    rendered h m s = String d ds /\ is_digit d = true.
Proof.
  unfold rendered, unit_text.
  destruct (h =? 0)%N eqn:Eh; [destruct (m =? 0)%N eqn:Em;
                                [destruct (s =? 0)%N eqn:Es|]|]; cbn [andb].
  - eexists _, _. split; reflexivity.
  - destruct (decimal_head s) as (d & ds & -> & Hd).
    exists d. eexists. rewrite !append_empty, append_String. now split.
  - destruct (decimal_head m) as (d & ds & -> & Hd).
    exists d. eexists. rewrite !append_empty, !append_String. now split.
  - destruct (decimal_head h) as (d & ds & -> & Hd).
    exists d. eexists. rewrite !append_String. now split.
Qed.

Lemma starts_with_PT (t : string) :
  starts_with "PT" t = true -> exists rest, t = String "P" (String "T" rest).
Proof.
  destruct t as [|a [|b rest]]; cbn [starts_with]; try discriminate.
  - now rewrite andb_false_r.
  - rewrite andb_true_r. intros E. apply andb_true_iff in E as [Ea Eb].
    apply Ascii.eqb_eq in Ea, Eb. subst. now exists rest.
Qed.

Lemma re_match_PT (rest : string) :
  exists g1 g2 g3, re_match (String "P" (String "T" rest)) = Some (g1, g2, g3).
Proof.
  unfold re_match.
  destruct (optional_group "H" rest) as [g1 s2].
  destruct (optional_group "M" s2) as [g2 s3].
  destruct (optional_group "S" s3) as [g3 s4].
  now exists g1, g2, g3.
Qed.

Lemma re_match_other (t : string) :
  starts_with "PT" t = false -> re_match t = None.
Proof.
  destruct t as [|a t]; [reflexivity|].
  destruct t as [|b t].
  { intros _. destruct a as [[] [] [] [] [] [] [] []]; reflexivity. }
  destruct (Ascii.eqb_spec a "P") as [->|Ha].
  - destruct (Ascii.eqb_spec b "T") as [->|Hb]; [discriminate|].
    intros _. destruct b as [[] [] [] [] [] [] [] []];
      try reflexivity; congruence.
  - intros _. destruct a as [[] [] [] [] [] [] [] []];
      try reflexivity; congruence.
Qed.

End DurationText.




(** * Further properties of the program *)

(** ** Which exceptions the data model raises *)

Section DataErrors.
Context {RT : Runtime}.

Lemma dict_item_error d k e : dict_item d k = Raises e -> data_error e = true.
Proof. unfold dict_item. destruct (d !! k); now intros [= <-]. Qed.

Lemma subscript_error v k e : subscript v k = Raises e -> data_error e = true.
Proof.
  destruct v; cbn [subscript]; try (now intros [= <-]). apply dict_item_error.
Qed.

Lemma get_method_error v k x e :
  get_method v k x = Raises e -> data_error e = true.
Proof. destruct v; cbn [get_method]; now intros [= <-]. Qed.

Lemma iterate_error v e : iterate v = Raises e -> data_error e = true.
Proof. destruct v; cbn [iterate]; now intros [= <-]. Qed.

Lemma py_int_error v e : py_int v = Raises e -> data_error e = true.
Proof.
  destruct v; cbn [py_int]; try (now intros [= <-]).
  destruct (int_of_str s); now intros [= <-].
Qed.

Lemma as_number_error v e : as_number v = Raises e -> data_error e = true.
Proof. destruct v; cbn [as_number]; now intros [= <-]. Qed.

Lemma replace_method_error v a b e :
  replace_method v a b = Raises e -> data_error e = true.
Proof. destruct v; cbn [replace_method]; now intros [= <-]. Qed.

Lemma join_error sep l e : join sep l = Raises e -> data_error e = true.
Proof.
  induction l as [|x l IH]; cbn [join]; [discriminate|].
  destruct x; try (now intros [= <-]).
  destruct l as [|y l]; [discriminate|].
  destruct (join sep (y :: l)); [discriminate|].
  intros [= <-]. now apply IH.
Qed.

Lemma traverse_error {A B} (f : A -> outcome B) (l : list A) e :
  (forall x e', f x = Raises e' -> data_error e' = true) ->
  traverse f l = Raises e -> data_error e = true.
Proof.
  intros Hf. induction l as [|x l IH]; cbn [traverse and_then]; [discriminate|].
  destruct (f x) as [y|e'] eqn:Hx; cbn [and_then].
  - destruct (traverse f l); cbn [and_then]; [discriminate|].
    intros [= <-]. now apply IH.
  - intros [= <-]. now apply (Hf x).
Qed.

(** An element that raises makes the whole comprehension raise *)
Lemma traverse_raises {A B} (f : A -> outcome B) (l : list A) x e0 :
  x ∈ l -> f x = Raises e0 -> exists e, traverse f l = Raises e.
Proof.
  intros Hin Hx. induction l as [|y l IH]; [now apply elem_of_nil in Hin|].
  cbn [traverse and_then].
  destruct (f y) as [b|e] eqn:Hy; cbn [and_then]; [|now exists e].
  apply elem_of_cons in Hin as [->|Hin]; [congruence|].
  destruct (IH Hin) as [e ->]. now exists e.
Qed.

Lemma video_id_of_error item e :
  video_id_of item = Raises e -> data_error e = true.
Proof.
  unfold video_id_of.
  destruct (subscript item "id") as [i|e'] eqn:Hi; cbn [and_then].
  - apply subscript_error.
  - intros [= <-]. now apply subscript_error in Hi.
Qed.

Lemma video_ids_of_error response e :
  video_ids_of response = Raises e -> data_error e = true.
Proof.
  unfold video_ids_of.
  destruct (get_method response "items" (PList [])) as [items|e'] eqn:Hg;
    cbn [and_then]; [|intros [= <-]; now apply get_method_error in Hg].
  destruct (iterate items) as [l|e'] eqn:Hi;
    cbn [and_then]; [|intros [= <-]; now apply iterate_error in Hi].
  apply traverse_error. apply video_id_of_error.
Qed.

Lemma video_info_of_error video e :
  video_info_of video = Raises e -> data_error e = true.
Proof.
  unfold video_info_of.
  repeat match goal with
         | |- and_then ?o _ = Raises _ -> _ =>
             let E := fresh "E" in
             destruct o eqn:E; cbn [and_then];
             [|intros [= <-];
               first [ now apply subscript_error in E
                     | now apply get_method_error in E
                     | now apply py_int_error in E ]]
         end.
  discriminate.
Qed.

Lemma video_infos_of_error details e :
  video_infos_of details = Raises e -> data_error e = true.
Proof.
  unfold video_infos_of.
  destruct (get_method details "items" (PList [])) as [items|e'] eqn:Hg;
    cbn [and_then]; [|intros [= <-]; now apply get_method_error in Hg].
  destruct (iterate items) as [l|e'] eqn:Hi;
    cbn [and_then]; [|intros [= <-]; now apply iterate_error in Hi].
  apply traverse_error. apply video_info_of_error.
Qed.

Lemma data_error_class e :
  data_error e = true -> is_HttpError e = false /\ is_Exception e = true.
Proof. destruct e; try discriminate; now split. Qed.

End DataErrors.

(** ** More on the query client *)

Section QueryMore.
Context {RT : Runtime}.

Lemma search_videos_body_effects keyword max_results w :
  let wb := (search_videos_body keyword max_results w).2 in
  reads wb = S (reads w) /\
  console wb = console w /\
  exists more : list request,
    calls wb
    = (calls w ++ search_request keyword max_results (utcnow (reads w)) :: more)%list
    /\ (length more <= 1)%nat.
Proof.
  unfold search_videos_body, bind, datetime_now, remote, lift, ret.
  destruct (execute _ _) as [response|]; cbn [snd fst];
    [|repeat split; exists []; split; [reflexivity|cbn; lia]].
  destruct (video_ids_of response) as [[|i ids]|];
    [repeat split; exists []; split; [reflexivity|cbn; lia]| |
     repeat split; exists []; split; [reflexivity|cbn; lia]].
  destruct (join "," (i :: ids)) as [joined|];
    [|repeat split; exists []; split; [reflexivity|cbn; lia]].
  assert (forall o : outcome (list (gmap string pyval)) * world,
            o.2 = issued (videos_request joined)
                    (issued (search_request keyword max_results (utcnow (reads w)))
                       (clock_read w)) ->
            reads o.2 = S (reads w) /\ console o.2 = console w /\
            exists more : list request,
              calls o.2
              = (calls w ++ search_request keyword max_results (utcnow (reads w))
                   :: more)%list /\ (length more <= 1)%nat) as Hfin.
  { intros o ->. repeat split. exists [videos_request joined].
    split; [|cbn; lia]. cbn [calls issued clock_read]. now rewrite <- app_assoc. }
  destruct (execute _ (videos_request joined)) as [details|]; now apply Hfin.
Qed.

Lemma search_videos_after_body keyword max_results w :
  let wb := (search_videos_body keyword max_results w).2 in
  let w' := (search_videos keyword max_results w).2 in
  reads w' = reads wb /\ calls w' = calls wb /\
  exists lines : list string,
    console w' = (console wb ++ lines)%list /\ (length lines <= 1)%nat.
Proof.
  unfold search_videos, try_except, bind, print, ret.
  destruct (search_videos_body keyword max_results w) as [[vs|e] wb]; cbn [snd].
  - repeat split. exists []. split; [now rewrite app_nil_r|cbn; lia].
  - destruct (is_HttpError e); [|destruct (is_Exception e)]; cbn [snd];
      repeat split;
      first [ eexists [_]; split; [reflexivity|cbn; lia]
            | exists []; split; [now rewrite app_nil_r|cbn; lia] ].
Qed.

(** X1: whatever happens inside, [search_videos] lets no exception that
    derives from [Exception] escape: it returns a list, or an interrupt
    raised by a remote call passes through. *)
Theorem search_videos_raises_no_exception
    (keyword : string) (max_results : Z) (w : world) :
  match (search_videos keyword max_results w).1 with
  | Returns _ => True
  | Raises e => is_Exception e = false
  end.
Proof.
  unfold search_videos, try_except, bind, print, ret.
  destruct (search_videos_body keyword max_results w) as [[vs|e] wb];
    cbn [fst]; [exact I|].
  destruct (is_HttpError e) eqn:Hh; [exact I|].
  destruct (is_Exception e) eqn:He; [exact I|exact He].
Qed.

(** X2: one call of [search_videos] reads the clock once, issues the
    search request first and at most one request after it, and prints at
    most one line. *)
Theorem search_videos_effects
    (keyword : string) (max_results : Z) (w : world) :
  let w' := (search_videos keyword max_results w).2 in
  reads w' = S (reads w) /\
  (exists more : list request,
     calls w'
     = (calls w ++ search_request keyword max_results (utcnow (reads w)) :: more)%list
     /\ (length more <= 1)%nat) /\
  (exists lines : list string,
     console w' = (console w ++ lines)%list /\ (length lines <= 1)%nat).
Proof.
  destruct (search_videos_body_effects keyword max_results w)
    as (Hr & Hc & more & Hcalls & Hmore).
  destruct (search_videos_after_body keyword max_results w)
    as (Hr' & Hcalls' & lines & Hlines & Hlen).
  cbn zeta in *. split; [congruence|]. split.
  - exists more. split; [congruence|exact Hmore].
  - exists lines. split; [congruence|exact Hlen].
Qed.

End QueryMore.

Lemma search_videos_passes `{Runtime} keyword max_results w vs wb :
  search_videos_body keyword max_results w = (Returns vs, wb) ->
  search_videos keyword max_results w = (Returns vs, wb).
Proof. intros E. unfold search_videos, try_except. now rewrite E. Qed.

Lemma search_videos_data_error `{Runtime} keyword max_results w e wb :
  search_videos_body keyword max_results w = (Raises e, wb) ->
  data_error e = true ->
  search_videos keyword max_results w
  = (Returns [], printed ("エラーが発生しました: " ++ exn_text e) wb).
Proof.
  intros E He. apply data_error_class in He as [Hh Hx].
  unfold search_videos, try_except. now rewrite E, Hh, Hx.
Qed.

(** X3: no partial result.  When one item of the details response
    cannot be turned into a record, [search_videos] returns the empty
    list, the records of the other items included, and prints the
    general error line. *)
Theorem search_videos_damaged_item `{Runtime}
    (keyword : string) (max_results : Z) (w : world)
    (response details x : pyval) (ids items : list pyval) (joined : string)
    (e0 : pyexn) :
  execute (calls w) (search_request keyword max_results (utcnow (reads w)))
    = Returns response ->
  video_ids_of response = Returns ids ->
  ids <> [] ->
  join "," ids = Returns joined ->
  execute (calls w ++ [search_request keyword max_results (utcnow (reads w))])
          (videos_request joined) = Returns details ->
  get_method details "items" (PList []) = Returns (PList items) ->
  x ∈ items ->
  video_info_of x = Raises e0 ->
  exists e : pyexn,
    data_error e = true /\
    search_videos keyword max_results w
    = (Returns [],
       printed ("エラーが発生しました: " ++ exn_text e)
         (issued (videos_request joined)
            (issued (search_request keyword max_results (utcnow (reads w)))
               (clock_read w)))).
Proof.
  intros E Hids Hne Hjoin E2 Hitems Hin Hx.
  destruct (traverse_raises video_info_of items x e0 Hin Hx) as [e He].
  assert (video_infos_of details = Raises e) as Hd.
  { unfold video_infos_of. rewrite Hitems. exact He. }
  exists e. split; [now apply video_infos_of_error in Hd|].
  apply search_videos_data_error; [|now apply video_infos_of_error in Hd].
  rewrite (body_details_return keyword max_results w response ids joined details
             E Hids Hne Hjoin E2).
  now rewrite Hd.
Qed.

Lemma search_videos_damaged_item_witness :
  exists e : pyexn,
    data_error e = true /\
    @search_videos DemoFaulty.runtime "gap" 50 Demo.boot
    = (Returns [],
       printed ("エラーが発生しました: " ++ @exn_text DemoFaulty.runtime e)
         (issued (@videos_request "A,G")
            (issued (@search_request DemoFaulty.runtime "gap" 50 Demo.start)
               (clock_read Demo.boot)))).
Proof.
  apply (@search_videos_damaged_item DemoFaulty.runtime "gap" 50 Demo.boot
           (Demo.obj [("items", PList [Demo.hit "A"; Demo.hit "G"])])
           (Demo.obj [("items", PList [
              Demo.detail "A" "Half a day old" "2023-11-14T10:13:20Z"
                          [("viewCount", PStr "20000")] "PT1H2M10S";
              Demo.obj [("id", PStr "G");
                        ("statistics", Demo.obj [("viewCount", PStr "7")]);
                        ("contentDetails", Demo.obj [("duration", PStr "PT5S")])]])])
           (Demo.obj [("id", PStr "G");
                      ("statistics", Demo.obj [("viewCount", PStr "7")]);
                      ("contentDetails", Demo.obj [("duration", PStr "PT5S")])])
           [PStr "A"; PStr "G"]
           [Demo.detail "A" "Half a day old" "2023-11-14T10:13:20Z"
                        [("viewCount", PStr "20000")] "PT1H2M10S";
            Demo.obj [("id", PStr "G");
                      ("statistics", Demo.obj [("viewCount", PStr "7")]);
                      ("contentDetails", Demo.obj [("duration", PStr "PT5S")])]]
           "A,G" (KeyError "snippet")).
  - reflexivity.
  - reflexivity.
  - discriminate.
  - reflexivity.
  - reflexivity.
  - reflexivity.
  - apply elem_of_cons. right. apply elem_of_cons. now left.
  - reflexivity.
Defined.

(** What one record holds, read off the item it was built from *)
Lemma video_info_of_fields `{Runtime} (video : pyval) (r : gmap string pyval) :
  video_info_of video = Returns r ->
  exists (id statistics views likes : pyval) (vc lc : Z),
    subscript video "id" = Returns id /\
    subscript video "statistics" = Returns statistics /\
    get_method statistics "viewCount" (PInt 0) = Returns views /\
    py_int views = Returns vc /\
    get_method statistics "likeCount" (PInt 0) = Returns likes /\
    py_int likes = Returns lc /\
    r !! "video_id" = Some id /\
    r !! "url" = Some (PStr ("https://www.youtube.com/watch?v=" ++ format_value id)) /\
    r !! "view_count" = Some (PInt vc) /\
    r !! "like_count" = Some (PInt lc).
Proof.
  unfold video_info_of.
  repeat match goal with
         | |- and_then ?o _ = Returns _ -> _ =>
             let E := fresh "E" in
             destruct o eqn:E; cbn [and_then]; [|discriminate]
         end.
  intros [= <-].
  eexists _, _, _, _, _, _.
  repeat split; try eassumption; try reflexivity.
Qed.

Lemma search_videos_records `{Runtime} keyword max_results w videos w' :
  search_videos keyword max_results w = (Returns videos, w') ->
  Forall (fun v => exists item, video_info_of item = Returns v) videos.
Proof.
  unfold search_videos, try_except.
  destruct (search_videos_body keyword max_results w) as [[vs|e] w1] eqn:Hb.
  - intros [= <- _].
    apply search_videos_body_returns in Hb as [-> | [details Hd]];
      [constructor|].
    unfold video_infos_of in Hd.
    destruct (get_method details "items" (PList [])) as [items|];
      cbn [and_then] in Hd; [|discriminate].
    destruct (iterate items) as [l|]; cbn [and_then] in Hd; [|discriminate].
    apply traverse_Forall2 in Hd.
    apply Forall_forall. intros v Hv.
    apply list_elem_of_lookup in Hv as [i Hi].
    destruct (Forall2_lookup_r _ _ _ _ _ Hd Hi) as (x & _ & Hx).
    now exists x.
  - unfold bind, print, ret.
    destruct (is_HttpError e); [|destruct (is_Exception e)];
      intros [= <- _]; constructor.
Qed.

(** X4: every record [search_videos] returns has integer [view_count]
    and [like_count], and a [url] that is the watch address followed by
    its [video_id] as text. *)
Theorem search_videos_record_shape `{Runtime}
    (keyword : string) (max_results : Z) (w : world)
    (videos : list (gmap string pyval)) :
  (search_videos keyword max_results w).1 = Returns videos ->
  forall r, r ∈ videos ->
    exists (id : pyval) (vc lc : Z),
      r !! "video_id" = Some id /\
      r !! "url"
      = Some (PStr ("https://www.youtube.com/watch?v=" ++ format_value id)) /\
      r !! "view_count" = Some (PInt vc) /\
      r !! "like_count" = Some (PInt lc).
Proof.
  intros Hrun r Hr.
  destruct (search_videos keyword max_results w) as [o w'] eqn:E.
  cbn [fst] in Hrun. subst o.
  pose proof (search_videos_records _ _ _ _ _ E) as Hall.
  rewrite Forall_forall in Hall. destruct (Hall r Hr) as [item Hitem].
  destruct (video_info_of_fields item r Hitem)
    as (id & _ & _ & _ & vc & lc & _ & _ & _ & _ & _ & _ & Hid & Hurl & Hvc & Hlc).
  now exists id, vc, lc.
Qed.

Lemma search_videos_record_shape_witness :
  match (@search_videos Demo.runtime "rocq" 50 Demo.boot).1 with
  | Returns videos =>
      length videos = 4%nat /\
      forall r, r ∈ videos ->
        exists (id : pyval) (vc lc : Z),
          r !! "video_id" = Some id /\
          r !! "url"
          = Some (PStr ("https://www.youtube.com/watch?v="
                        ++ @format_value Demo.runtime id)) /\
          r !! "view_count" = Some (PInt vc) /\
          r !! "like_count" = Some (PInt lc)
  | Raises _ => False
  end.
Proof.
  assert (match (@search_videos Demo.runtime "rocq" 50 Demo.boot).1 with
          | Returns l => length l
          | Raises _ => 0%nat
          end = 4%nat) as Hlen by (vm_compute; reflexivity).
  revert Hlen.
  destruct (@search_videos Demo.runtime "rocq" 50 Demo.boot).1
    as [videos|e] eqn:Hrun; intros Hlen.
  - split; [exact Hlen|].
    exact (@search_videos_record_shape Demo.runtime "rocq" 50 Demo.boot videos Hrun).
  - discriminate.
Defined.

(** X5: an item whose [statistics] has no [viewCount] gives a record with
    [view_count] 0, and one without [likeCount] gives [like_count] 0. *)
Theorem video_info_of_default_counts `{Runtime}
    (video : pyval) (r : gmap string pyval) (statistics : gmap string pyval) :
  video_info_of video = Returns r ->
  subscript video "statistics" = Returns (PDict statistics) ->
  (statistics !! "viewCount" = None -> r !! "view_count" = Some (PInt 0)) /\
  (statistics !! "likeCount" = None -> r !! "like_count" = Some (PInt 0)).
Proof.
  intros Hr Hs.
  destruct (video_info_of_fields video r Hr)
    as (id & st & views & likes & vc & lc & _ & Hst & Hv & Hvc & Hl & Hlc
        & _ & _ & Hrv & Hrl).
  rewrite Hs in Hst. injection Hst as <-.
  cbn [get_method] in Hv, Hl. split; intros Hnone.
  - rewrite Hnone in Hv. injection Hv as <-. cbn [py_int] in Hvc.
    injection Hvc as <-. exact Hrv.
  - rewrite Hnone in Hl. injection Hl as <-. cbn [py_int] in Hlc.
    injection Hlc as <-. exact Hrl.
Qed.

Lemma video_info_of_default_counts_witness :
  exists r : gmap string pyval,
    @video_info_of Demo.runtime
      (Demo.detail "D" "No statistics" "2023-11-14T10:13:20Z" [] "PT0S")
    = Returns r /\
    r !! "view_count" = Some (PInt 0) /\ r !! "like_count" = Some (PInt 0).
Proof.
  destruct (@video_info_of Demo.runtime
              (Demo.detail "D" "No statistics" "2023-11-14T10:13:20Z" [] "PT0S"))
    as [r|e] eqn:Hr.
  - exists r. split; [reflexivity|].
    destruct (@video_info_of_default_counts Demo.runtime
                (Demo.detail "D" "No statistics" "2023-11-14T10:13:20Z" [] "PT0S")
                r ∅ Hr eq_refl) as [Hv Hl].
    split; [apply Hv|apply Hl]; reflexivity.
  - vm_compute in Hr. discriminate.
Defined.

(** X6: when both calls succeed and every item of the details response
    can be read, [search_videos] prints nothing and returns one record
    per item of the details response, in the order of that response,
    each with the [id] of its item. *)
Theorem search_videos_in_response_order `{Runtime}
    (keyword : string) (max_results : Z) (w : world)
    (response details : pyval) (ids items : list pyval) (joined : string)
    (videos : list (gmap string pyval)) :
  execute (calls w) (search_request keyword max_results (utcnow (reads w)))
    = Returns response ->
  video_ids_of response = Returns ids ->
  ids <> [] ->
  join "," ids = Returns joined ->
  execute (calls w ++ [search_request keyword max_results (utcnow (reads w))])
          (videos_request joined) = Returns details ->
  get_method details "items" (PList []) = Returns (PList items) ->
  traverse video_info_of items = Returns videos ->
  search_videos keyword max_results w
  = (Returns videos,
     issued (videos_request joined)
       (issued (search_request keyword max_results (utcnow (reads w)))
          (clock_read w))) /\
  Forall2 (fun item r =>
             exists id, subscript item "id" = Returns id /\
                        r !! "video_id" = Some id)
          items videos.
Proof.
  intros E Hids Hne Hjoin E2 Hitems Hvs. split.
  - apply search_videos_passes.
    rewrite (body_details_return keyword max_results w response ids joined details
               E Hids Hne Hjoin E2).
    unfold video_infos_of. rewrite Hitems. cbn [and_then iterate]. now rewrite Hvs.
  - eapply Forall2_impl; [exact (traverse_Forall2 _ _ _ Hvs)|].
    intros item r Hr.
    destruct (video_info_of_fields item r Hr)
      as (id & _ & _ & _ & _ & _ & Hid & _ & _ & _ & _ & _ & Hrid & _).
    now exists id.
Qed.

Lemma search_videos_in_response_order_witness :
  exists videos : list (gmap string pyval),
    (@search_videos Demo.runtime "rocq" 50 Demo.boot).1 = Returns videos /\
    (fun r => r !! "video_id") <$> videos
    = [Some (PStr "B"); Some (PStr "A"); Some (PStr "C"); Some (PStr "D")].
Proof.
  pose (items :=
          [Demo.detail "B" "Two days old" "2023-11-12T22:13:20Z"
                       [("viewCount", PStr "3000"); ("likeCount", PStr "40")] "PT15M";
           Demo.detail "A" "Half a day old" "2023-11-14T10:13:20Z"
                       [("viewCount", PStr "20000"); ("likeCount", PStr "700")]
                       "PT1H2M10S";
           Demo.detail "C" "Twenty days old" "2023-10-25T22:13:20Z"
                       [("viewCount", PStr "900000")] "PT45S";
           Demo.detail "D" "No statistics" "2023-11-14T10:13:20Z" [] "PT0S"]).
  assert (match traverse (@video_info_of Demo.runtime) items with
          | Returns l => (fun r => r !! "video_id") <$> l
          | Raises _ => []
          end
          = [Some (PStr "B"); Some (PStr "A"); Some (PStr "C"); Some (PStr "D")])
    as Hids by (vm_compute; reflexivity).
  revert Hids.
  destruct (traverse (@video_info_of Demo.runtime) items) as [videos|e] eqn:Hvs;
    intros Hids; [|discriminate].
  exists videos. split; [|exact Hids].
  destruct (@search_videos_in_response_order Demo.runtime "rocq" 50 Demo.boot
              (Demo.obj [("items", PList [Demo.hit "B"; Demo.hit "A";
                                         Demo.hit "C"; Demo.hit "D"])])
              (Demo.obj [("items", PList items)])
              [PStr "B"; PStr "A"; PStr "C"; PStr "D"] items "B,A,C,D" videos)
    as [Hrun _]; try reflexivity; [discriminate|exact Hvs|].
  now rewrite Hrun.
Defined.

(** ** More on the score *)







Lemma trending_value_zero (d : Q) : trending_value 0 d == 0.
Proof.
  unfold trending_value.
  destruct (Qltb d 0); [reflexivity|].
  destruct (Qltb _ d); [reflexivity|].
  unfold Qdiv. now rewrite !Qmult_0_l.
Qed.



(** The run of [calculate_trending_score] on a record that can be read *)
Lemma score_run `{Runtime} (video : gmap string pyval) (w : world)
    (s : string) (t : Z) (x : pyval) (c : Q) :
  video !! "published_at" = Some (PStr s) ->
  fromisoformat (str_replace "Z" "+00:00" s) = Some (Aware t) ->
  video !! "view_count" = Some x ->
  as_number x = Returns c ->
  exists r : pyval,
    calculate_trending_score video w = (Returns r, clock_read w) /\
    as_number r = Returns (trending_value c (days_between (utcnow (reads w)) t)).
Proof.
  intros Hp Hf Hx Hc. unfold trending_value.
  destruct (Qltb (days_between (utcnow (reads w)) t) 0) eqn:E0.
  { apply Qltb_true in E0. exists (PInt 0).
    now rewrite (score_future video w s t Hp Hf E0). }
  destruct (Qltb (inject_Z config.TRENDING_PERIOD_DAYS)
                 (days_between (utcnow (reads w)) t)) eqn:E14.
  { apply Qltb_true in E14. exists (PInt 0).
    now rewrite (score_stale video w s t Hp Hf E14). }
  apply Qltb_false in E0, E14. eexists. split.
  - exact (score_fresh video w s t Hp Hf x c E0 E14 Hx Hc).
  - reflexivity.
Qed.

(** X7: [calculate_trending_score] issues no request and prints nothing;
    all it does to the world is read the clock, at most once. *)
Theorem calculate_trending_score_effects `{Runtime}
    (video : gmap string pyval) (w : world) :
  let w' := (calculate_trending_score video w).2 in
  (w' = w \/ w' = clock_read w) /\ calls w' = calls w /\ console w' = console w.
Proof.
  unfold calculate_trending_score, bind, lift, ret, datetime_now.
  destruct (dict_item video "published_at") as [x|]; cbn [snd]; [|now auto].
  destruct (replace_method x "Z" "+00:00") as [text|]; cbn [snd]; [|now auto].
  destruct (fromisoformat text) as [d|]; cbn [snd]; [|now auto].
  destruct (datetime_sub _ d) as [delta|]; cbn [snd]; [|now auto].
  destruct (Qltb _ 0); cbn [snd]; [now auto|].
  destruct (Qltb _ _); cbn [snd]; [now auto|].
  destruct (dict_item video "view_count") as [y|]; cbn [snd]; [|now auto].
  destruct (as_number y); cbn [snd]; now auto.
Qed.

(** X8: a record with no views scores 0 at every age, inside the window
    as outside it. *)
Theorem calculate_trending_score_no_views `{Runtime}
    (video : gmap string pyval) (w : world) (s : string) (t : Z) :
  video !! "published_at" = Some (PStr s) ->
  fromisoformat (str_replace "Z" "+00:00" s) = Some (Aware t) ->
  video !! "view_count" = Some (PInt 0) ->
  exists (r : pyval) (q : Q),
    (calculate_trending_score video w).1 = Returns r /\
    as_number r = Returns q /\ q == 0.
Proof.
  intros Hp Hf Hv.
  destruct (score_run video w s t (PInt 0) 0 Hp Hf Hv eq_refl) as (r & Hrun & Hr).
  exists r. eexists. split; [now rewrite Hrun|]. split; [exact Hr|].
  apply trending_value_zero.
Qed.

Lemma calculate_trending_score_no_views_witness :
  exists (r : pyval) (q : Q),
    (@calculate_trending_score Demo.runtime
       (Demo.record "2023-11-12T22:13:20Z" 0) Demo.boot).1 = Returns r /\
    as_number r = Returns q /\ q == 0.
Proof.
  apply (@calculate_trending_score_no_views Demo.runtime
           (Demo.record "2023-11-12T22:13:20Z" 0) Demo.boot
           "2023-11-12T22:13:20Z" (Demo.start - 172800000000)).
  - reflexivity.
  - reflexivity.
  - reflexivity.
Defined.





(** X11: how [calculate_trending_score] fails on [published_at]: a
    missing entry raises [KeyError], a value that is no [str] raises
    [AttributeError], a text [fromisoformat] rejects raises [ValueError],
    all three before the clock is read; a timestamp without offset raises
    [TypeError] at the subtraction, after the clock is read. *)
Theorem calculate_trending_score_bad_timestamp `{Runtime}
    (video : gmap string pyval) (w : world) :
  (video !! "published_at" = None ->
   calculate_trending_score video w = (Raises (KeyError "published_at"), w)) /\
  (forall x : pyval,
     video !! "published_at" = Some x ->
     (forall s, x <> PStr s) ->
     calculate_trending_score video w = (Raises AttributeError, w)) /\
  (forall s : string,
     video !! "published_at" = Some (PStr s) ->
     fromisoformat (str_replace "Z" "+00:00" s) = None ->
     calculate_trending_score video w = (Raises ValueError, w)) /\
  (forall (s : string) (t : Z),
     video !! "published_at" = Some (PStr s) ->
     fromisoformat (str_replace "Z" "+00:00" s) = Some (Naive t) ->
     calculate_trending_score video w = (Raises TypeError, clock_read w)).
Proof.
  unfold calculate_trending_score, bind, lift, dict_item, datetime_now.
  split; [|split; [|split]].
  - now intros ->.
  - intros x -> Hx. destruct x; try reflexivity. now destruct (Hx s).
  - intros s -> Hf. cbn [replace_method]. now rewrite Hf.
  - intros s t -> Hf. cbn [replace_method]. now rewrite Hf.
Qed.

Lemma calculate_trending_score_bad_timestamp_witness :
  @calculate_trending_score Demo.runtime (Demo.record "yesterday" 20000) Demo.boot
  = (Raises ValueError, Demo.boot) /\
  @calculate_trending_score Demo.runtime
    (Demo.record "2023-11-12T22:13:20" 20000) Demo.boot
  = (Raises TypeError, clock_read Demo.boot).
Proof.
  split.
  - apply (proj1 (proj2 (proj2 (@calculate_trending_score_bad_timestamp
                                  Demo.runtime (Demo.record "yesterday" 20000)
                                  Demo.boot)))
             "yesterday"); reflexivity.
  - apply (proj2 (proj2 (proj2 (@calculate_trending_score_bad_timestamp
                                  Demo.runtime
                                  (Demo.record "2023-11-12T22:13:20" 20000)
                                  Demo.boot)))
             "2023-11-12T22:13:20" (Demo.start - 172800000000)%Z); reflexivity.
Defined.

(** X12: [view_count] is looked up only for a record inside the window.
    Without the entry, a record inside the window raises [KeyError], a
    record outside it still scores 0; an entry that is no number raises
    [TypeError] inside the window. *)
Theorem calculate_trending_score_view_count_lookup `{Runtime}
    (video : gmap string pyval) (w : world) (s : string) (t : Z) :
  video !! "published_at" = Some (PStr s) ->
  fromisoformat (str_replace "Z" "+00:00" s) = Some (Aware t) ->
  let d := days_between (utcnow (reads w)) t in
  ((d < 0)%Q \/ (inject_Z config.TRENDING_PERIOD_DAYS < d)%Q ->
   calculate_trending_score video w = (Returns (PInt 0), clock_read w)) /\
  ((0 <= d)%Q -> (d <= inject_Z config.TRENDING_PERIOD_DAYS)%Q ->
   video !! "view_count" = None ->
   calculate_trending_score video w
   = (Raises (KeyError "view_count"), clock_read w)) /\
  ((0 <= d)%Q -> (d <= inject_Z config.TRENDING_PERIOD_DAYS)%Q ->
   forall x e, video !! "view_count" = Some x -> as_number x = Raises e ->
   calculate_trending_score video w = (Raises TypeError, clock_read w)).
Proof.
  intros Hp Hf d. split; [|split].
  - intros [L|L]; [now apply (score_future video w s t)
                  |now apply (score_stale video w s t)].
  - intros L0 L14 Hv. apply Qltb_false in L0, L14.
    unfold calculate_trending_score, bind, lift, dict_item, datetime_now.
    rewrite Hp. cbn [replace_method]. rewrite Hf. cbn [datetime_sub].
    fold (days_between (utcnow (reads w)) t). fold d.
    now rewrite L0, L14, Hv.
  - intros L0 L14 x e Hv Hx. apply Qltb_false in L0, L14.
    unfold calculate_trending_score, bind, lift, dict_item, datetime_now.
    rewrite Hp. cbn [replace_method]. rewrite Hf. cbn [datetime_sub].
    fold (days_between (utcnow (reads w)) t). fold d.
    rewrite L0, L14, Hv.
    destruct x; cbn [as_number] in *; try discriminate; reflexivity.
Qed.

Lemma calculate_trending_score_view_count_lookup_witness :
  @calculate_trending_score Demo.runtime
    (delete "view_count" (Demo.record "2023-10-25T22:13:20Z" 5)) Demo.boot
  = (Returns (PInt 0), clock_read Demo.boot) /\
  @calculate_trending_score Demo.runtime
    (delete "view_count" (Demo.record "2023-11-12T22:13:20Z" 5)) Demo.boot
  = (Raises (KeyError "view_count"), clock_read Demo.boot).
Proof.
  split.
  - apply (@calculate_trending_score_view_count_lookup Demo.runtime
             (delete "view_count" (Demo.record "2023-10-25T22:13:20Z" 5)) Demo.boot
             "2023-10-25T22:13:20Z" (Demo.start - 1728000000000));
      [reflexivity|reflexivity|]. right. vm_compute. reflexivity.
  - apply (@calculate_trending_score_view_count_lookup Demo.runtime
             (delete "view_count" (Demo.record "2023-11-12T22:13:20Z" 5)) Demo.boot
             "2023-11-12T22:13:20Z" (Demo.start - 172800000000));
      [reflexivity|reflexivity|vm_compute; discriminate|vm_compute; discriminate
      |reflexivity].
Defined.

(** ** More on the ranker *)

Lemma calculate_trending_score_error `{Runtime} video w e :
  (calculate_trending_score video w).1 = Raises e -> data_error e = true.
Proof.
  unfold calculate_trending_score, bind, lift, ret, datetime_now.
  destruct (dict_item video "published_at") as [x|e0] eqn:E1; cbn [fst];
    [|intros [= <-]; now apply dict_item_error in E1].
  destruct (replace_method x "Z" "+00:00") as [text|e0] eqn:E2; cbn [fst];
    [|intros [= <-]; now apply replace_method_error in E2].
  destruct (fromisoformat text) as [d|]; cbn [fst]; [|now intros [= <-]].
  destruct d as [t|t]; cbn [datetime_sub fst]; [|now intros [= <-]].
  destruct (Qltb _ 0); cbn [fst]; [discriminate|].
  destruct (Qltb _ _); cbn [fst]; [discriminate|].
  destruct (dict_item video "view_count") as [y|e0] eqn:E3; cbn [fst];
    [|intros [= <-]; now apply dict_item_error in E3].
  destruct (as_number y) as [c|e0] eqn:E4; cbn [fst];
    [discriminate|intros [= <-]; now apply as_number_error in E4].
Qed.

(** A record whose scoring raises in every world makes the loop raise *)
Lemma attach_scores_raises `{Runtime} videos v w :
  v ∈ videos ->
  (forall w0, exists e, (calculate_trending_score v w0).1 = Raises e) ->
  exists e w', attach_scores videos w = (Raises e, w') /\ data_error e = true.
Proof.
  intros Hin Hv. unfold attach_scores. revert w.
  induction videos as [|a videos IH]; intros w; [now apply elem_of_nil in Hin|].
  cbn [mapM]. unfold bind at 1 2.
  destruct (calculate_trending_score a w) as [[score|e] w1] eqn:Ha.
  - unfold ret at 1.
    apply elem_of_cons in Hin as [->|Hin].
    { destruct (Hv w) as [e He]. rewrite Ha in He. discriminate. }
    destruct (IH Hin w1) as (e & w' & Hrest & He).
    unfold bind in Hrest |- *. rewrite Hrest. now exists e, w'.
  - exists e, w1. split; [reflexivity|].
    apply (calculate_trending_score_error a w). now rewrite Ha.
Qed.

(** X13: scoring is outside the [try] of [search_videos]: when one
    record of the search result carries a [published_at] text that
    [fromisoformat] rejects, [find_trending_videos] raises, and the
    exception reaches its caller. *)
Theorem find_trending_videos_raises_on_bad_timestamp `{Runtime}
    (keyword : string) (max_results : Z) (min_trending_score : Q) (w w1 : world)
    (videos : list (gmap string pyval)) (v : gmap string pyval) (s : string) :
  search_videos keyword max_results w = (Returns videos, w1) ->
  v ∈ videos ->
  v !! "published_at" = Some (PStr s) ->
  fromisoformat (str_replace "Z" "+00:00" s) = None ->
  exists (e : pyexn) (w' : world),
    find_trending_videos keyword max_results min_trending_score w = (Raises e, w')
    /\ data_error e = true.
Proof.
  intros Hsearch Hin Hp Hf.
  destruct (attach_scores_raises videos v w1 Hin) as (e & w' & Ha & He).
  { intros w0. exists ValueError.
    unfold calculate_trending_score, bind, lift, dict_item.
    rewrite Hp. cbn [replace_method]. now rewrite Hf. }
  exists e, w'. split; [|exact He].
  unfold find_trending_videos, bind. now rewrite Hsearch, Ha.
Qed.

Lemma find_trending_videos_raises_on_bad_timestamp_witness :
  exists (e : pyexn) (w' : world),
    @find_trending_videos DemoFaulty.runtime "date" 50 1000 Demo.boot
    = (Raises e, w') /\ data_error e = true.
Proof.
  assert (exists a w1,
            @search_videos DemoFaulty.runtime "date" 50 Demo.boot
            = (Returns [a; DemoFaulty.undated], w1)) as (a & w1 & Hsearch).
  { eexists _, _. vm_compute. reflexivity. }
  apply (@find_trending_videos_raises_on_bad_timestamp DemoFaulty.runtime
           "date" 50 1000 Demo.boot w1 [a; DemoFaulty.undated]
           DemoFaulty.undated "yesterday" Hsearch).
  - apply elem_of_cons. right. apply elem_of_cons. now left.
  - reflexivity.
  - reflexivity.
Defined.






Lemma find_trending_videos_nothing_found `{Runtime}
    keyword max_results (m : Q) w w1 :
  search_videos keyword max_results w = (Returns [], w1) ->
  find_trending_videos keyword max_results m w = (Returns [], w1).
Proof.
  intros Hsearch. unfold find_trending_videos, bind. now rewrite Hsearch.
Qed.

(** X15: when the search call or the details call raises an error,
    [find_trending_videos] returns the empty list as well: nothing is
    scored, the clock is read only the once by [search_videos], and the
    only trace of the failure is the line printed. *)
Theorem find_trending_videos_empty_on_remote_error `{Runtime}
    (keyword : string) (max_results : Z) (min_trending_score : Q)
    (w : world) (e : pyexn) :
  is_Exception e = true ->
  execute (calls w) (search_request keyword max_results (utcnow (reads w)))
    = Raises e \/
  (exists (response : pyval) (ids : list pyval) (joined : string),
     execute (calls w) (search_request keyword max_results (utcnow (reads w)))
       = Returns response /\
     video_ids_of response = Returns ids /\
     ids <> [] /\
     join "," ids = Returns joined /\
     execute (calls w ++ [search_request keyword max_results (utcnow (reads w))])
             (videos_request joined) = Raises e) ->
  let run := find_trending_videos keyword max_results min_trending_score w in
  run.1 = Returns [] /\
  reads run.2 = S (reads w) /\
  exists line : string, console run.2 = (console w ++ [line])%list.
Proof.
  intros Hexn Hfail.
  assert (exists wb, search_videos_body keyword max_results w = (Raises e, wb) /\
                     reads wb = S (reads w) /\ console wb = console w)
    as (wb & Hbody & Hreads & Hconsole).
  { destruct Hfail as [E | (response & ids & joined & E & Hids & Hne & Hjoin & E2)].
    - eexists. split; [exact (body_search_raises keyword max_results w e E)|].
      now split.
    - eexists. split;
        [exact (body_details_raises keyword max_results w response ids joined e
                  E Hids Hne Hjoin E2)|].
      now split. }
  destruct (search_videos_handles keyword max_results w e wb Hbody Hexn)
    as [line Hsearch].
  cbn zeta.
  rewrite (find_trending_videos_nothing_found _ _ _ _ _ Hsearch).
  cbn [fst snd printed reads console]. repeat split; [exact Hreads|].
  exists line. now rewrite Hconsole.
Qed.

Lemma find_trending_videos_empty_on_remote_error_witness :
  (@find_trending_videos Demo.runtime "denied" 50 1000 Demo.boot).1 = Returns [] /\
  reads (@find_trending_videos Demo.runtime "denied" 50 1000 Demo.boot).2 = 1%nat /\
  exists line : string,
    console (@find_trending_videos Demo.runtime "denied" 50 1000 Demo.boot).2
    = [line].
Proof.
  apply (@find_trending_videos_empty_on_remote_error Demo.runtime "denied" 50 1000
           Demo.boot (HttpError "403 quotaExceeded")).
  - reflexivity.
  - left. reflexivity.
Defined.

Lemma filter_as_bool {A} (f : A -> bool) (l : list A) :
  filter (fun x => f x = true) l = List.filter f l.
Proof.
  induction l as [|x l IH]; [reflexivity|].
  rewrite filter_cons. cbn [List.filter].
  destruct (f x) eqn:E.
  - rewrite decide_True by reflexivity. now rewrite IH.
  - rewrite decide_False by discriminate. exact IH.
Qed.

(** Inserting keeps the order of the entries that share a key *)
Lemma insert_desc_stable (k : Q) x l :
  List.filter (fun kv => Qeq_bool kv.1 k) (insert_desc x l)
  = List.filter (fun kv => Qeq_bool kv.1 k) (x :: l).
Proof.
  induction l as [|y l IH]; [reflexivity|].
  cbn [insert_desc].
  destruct (Qltb x.1 y.1) eqn:E; [|reflexivity].
  apply Qltb_true in E.
  cbn [List.filter] in IH |- *. rewrite IH.
  destruct (Qeq_bool x.1 k) eqn:Ex; [|reflexivity].
  assert (Qeq_bool y.1 k = false) as ->; [|reflexivity].
  destruct (Qeq_bool y.1 k) eqn:Ey; [|reflexivity].
  apply Qeq_bool_iff in Ex, Ey. rewrite Ex, Ey in E.
  now apply Qlt_irrefl in E.
Qed.

Lemma sorted_reverse_stable_filter (k : Q) l :
  List.filter (fun kv => Qeq_bool kv.1 k) (sorted_reverse l)
  = List.filter (fun kv => Qeq_bool kv.1 k) l.
Proof.
  induction l as [|x l IH]; [reflexivity|].
  cbn [sorted_reverse foldr]. fold (sorted_reverse l).
  rewrite insert_desc_stable. cbn [List.filter]. now rewrite IH.
Qed.

Lemma filter_has_score (k : Q) (l : list (Q * gmap string pyval)) :
  Forall key_of_record l ->
  List.filter (has_score k) l.*2
  = (List.filter (fun kv => Qeq_bool kv.1 k) l).*2.
Proof.
  induction 1 as [|kv l Hkv _ IH]; [reflexivity|].
  cbn [fmap list_fmap List.filter]. unfold has_score at 1.
  unfold key_of_record in Hkv. rewrite Hkv.
  destruct (Qeq_bool kv.1 k); cbn [fmap list_fmap]; now rewrite <- IH.
Qed.

(** X16: the list returned holds each record that passes the test
    exactly once, and records with equal scores stand in the order of the
    search result. *)
Theorem find_trending_videos_stable `{Runtime}
    (keyword : string) (max_results : Z) (min_trending_score : Q)
    (w : world) (out : list (gmap string pyval)) :
  (find_trending_videos keyword max_results min_trending_score w).1
    = Returns out ->
  exists videos w1 scored w2,
    search_videos keyword max_results w = (Returns videos, w1) /\
    attach_scores videos w1 = (Returns scored, w2) /\
    out ≡ₚ List.filter (keeps min_trending_score) scored /\
    (length out <= length videos)%nat /\
    forall k : Q,
      List.filter (has_score k) out
      = List.filter (has_score k) (List.filter (keeps min_trending_score) scored).
Proof.
  intros Hrun.
  apply find_trending_videos_inv in Hrun
    as (videos & w1 & scored & w2 & Hsearch & Hattach & Hsel).
  exists videos, w1, scored, w2. split; [exact Hsearch|]. split; [exact Hattach|].
  pose proof (select_trending_spec _ _ _ Hsel) as [Hperm _].
  rewrite filter_as_bool in Hperm. split; [exact Hperm|]. split.
  - rewrite Hperm.
    rewrite (Forall2_length _ _ _ (attach_scores_spec _ _ _ _ Hattach)).
    apply List.filter_length_le.
  - intros k. unfold select_trending in Hsel.
    destruct (keyed scored) as [kl|] eqn:Hk; cbn [and_then] in Hsel;
      [|discriminate].
    injection Hsel as <-. apply keyed_spec in Hk.
    pose proof (keyed_key_of_record scored kl Hk) as Hall.
    rewrite <- (filter_as_bool (keeps min_trending_score)).
    rewrite <- (filter_keyed min_trending_score scored kl Hk).
    set (kept := filter _ kl).
    assert (Forall key_of_record kept) as Hkept.
    { apply Forall_forall. intros kv Hin.
      apply list_elem_of_filter in Hin as [_ Hin].
      rewrite Forall_forall in Hall. now apply Hall. }
    assert (Forall key_of_record (sorted_reverse kept)) as Hsorted
      by now rewrite sorted_reverse_perm.
    rewrite (filter_has_score k _ Hsorted), (filter_has_score k _ Hkept).
    now rewrite sorted_reverse_stable_filter.
Qed.

Lemma find_trending_videos_stable_witness :
  match (@find_trending_videos Demo.runtime "rocq" 50 1000 Demo.boot).1 with
  | Returns out =>
      exists videos w1 scored w2,
        @search_videos Demo.runtime "rocq" 50 Demo.boot = (Returns videos, w1) /\
        @attach_scores Demo.runtime videos w1 = (Returns scored, w2) /\
        out ≡ₚ List.filter (keeps 1000) scored /\
        (length out <= length videos)%nat /\
        forall k : Q,
          List.filter (has_score k) out
          = List.filter (has_score k) (List.filter (keeps 1000) scored)
  | Raises _ => False
  end.
Proof.
  destruct (@find_trending_videos Demo.runtime "rocq" 50 1000 Demo.boot).1
    as [out|e] eqn:Hrun.
  - exact (@find_trending_videos_stable Demo.runtime "rocq" 50 1000
             Demo.boot out Hrun).
  - vm_compute in Hrun. discriminate.
Defined.

(** ** More on the duration formatter *)

Lemma digit_not_P (d : ascii) (ds : string) :
  is_digit d = true -> starts_with "PT" (String d ds) = false.
Proof.
  intros Hd. cbn [starts_with].
  destruct (Ascii.eqb_spec "P" d) as [<-|_]; [discriminate|reflexivity].
Qed.

(** X17: formatting is idempotent: a text that [format_duration] has
    produced is returned unchanged when it is formatted again. *)
Theorem format_duration_idempotent (t : string) :
  format_duration (format_duration t) = format_duration t.
Proof.
  destruct (starts_with "PT" t) eqn:Ht.
  - destruct (starts_with_PT t Ht) as [rest ->].
    destruct (re_match_PT rest) as (g1 & g2 & g3 & E).
    rewrite (format_duration_rendered _ _ _ _ E).
    destruct (rendered_head (group_int g1) (group_int g2) (group_int g3))
      as (d & ds & -> & Hd).
    unfold format_duration. now rewrite (re_match_other _ (digit_not_P d ds Hd)).
  - assert (format_duration t = t) as Hsame
      by (unfold format_duration; now rewrite (re_match_other t Ht)).
    now rewrite !Hsame.
Qed.

(** X18: the result is the empty text only for the empty text. *)
Theorem format_duration_empty (t : string) :
  format_duration t = "" <-> t = "".
Proof.
  split; [|now intros ->].
  destruct (starts_with "PT" t) eqn:Ht.
  - destruct (starts_with_PT t Ht) as [rest ->].
    destruct (re_match_PT rest) as (g1 & g2 & g3 & E).
    rewrite (format_duration_rendered _ _ _ _ E).
    destruct (rendered_head (group_int g1) (group_int g2) (group_int g3))
      as (d & ds & -> & _).
    discriminate.
  - unfold format_duration. now rewrite (re_match_other t Ht).
Qed.

(** X19: nothing is read after the seconds: whatever text follows a
    duration that ends in its seconds group, the result is that of the
    duration alone. *)
Theorem format_duration_ignores_rest (h m : option N) (s : N) (rest : string) :
  format_duration (hms_text h m (Some s) ++ rest)
  = format_duration (hms_text h m (Some s)).
Proof.
  assert (re_match (hms_text h m (Some s) ++ rest)
          = Some (decimal <$> h, decimal <$> m, Some (decimal s))) as E.
  { unfold hms_text, component, re_match.
    destruct h as [h|], m as [m|];
      rewrite ?append_assoc, ?append_String, ?append_empty, ?append_empty_r;
      repeat first [ rewrite optional_group_read by reflexivity
                   | rewrite optional_group_skip by reflexivity ];
      reflexivity. }
  rewrite (format_duration_rendered _ _ _ _ E).
  now rewrite (format_duration_rendered _ _ _ _
                 (proj1 (re_match_hms_text h m (Some s)))).
Qed.

Lemma optional_group_read_digits (letter : ascii) (u : uint) (rest : string) :
  u <> Nil -> is_digit letter = false ->
  optional_group letter (NilEmpty.string_of_uint u ++ String letter rest)
  = (Some (NilEmpty.string_of_uint u), rest).
Proof.
  intros Hu Hl. unfold optional_group.
  rewrite span_digits_uint by exact Hl.
  destruct u; [congruence|..]; cbn [NilEmpty.string_of_uint];
    now rewrite Ascii.eqb_refl.
Qed.

Lemma optional_group_skip_digits (letter other : ascii) (u : uint) (rest : string) :
  is_digit other = false -> Ascii.eqb other letter = false ->
  optional_group letter (NilEmpty.string_of_uint u ++ String other rest)
  = (None, NilEmpty.string_of_uint u ++ String other rest).
Proof.
  intros Ho Hne. unfold optional_group.
  rewrite span_digits_uint by exact Ho.
  destruct (NilEmpty.string_of_uint u); [reflexivity|].
  now rewrite Hne.
Qed.

Lemma group_int_digits (u : option uint) :
  group_int (NilEmpty.string_of_uint <$> u) = digits_value u.
Proof.
  destruct u as [u|]; [|reflexivity].
  cbn [fmap option_fmap option_map group_int digits_value].
  now rewrite NilEmpty.usu.
Qed.

(** X20: each component is read by its value: leading zeros disappear
    and a component written as zeros is left out like an absent one. *)
Theorem format_duration_by_value (h m s : option uint) :
  nonempty_digits h -> nonempty_digits m -> nonempty_digits s ->
  format_duration (hms_digits h m s)
  = rendered (digits_value h) (digits_value m) (digits_value s).
Proof.
  intros Hh Hm Hs.
  assert (re_match (hms_digits h m s)
          = Some (NilEmpty.string_of_uint <$> h, NilEmpty.string_of_uint <$> m,
                  NilEmpty.string_of_uint <$> s)) as E.
  { unfold hms_digits, digits_component, re_match.
    destruct h as [h|], m as [m|], s as [s|]; cbn [nonempty_digits] in *;
      rewrite ?append_assoc, ?append_String, ?append_empty, ?append_empty_r;
      repeat first
        [ rewrite optional_group_read_digits by (assumption || reflexivity)
        | rewrite optional_group_skip_digits by reflexivity ];
      reflexivity. }
  rewrite (format_duration_rendered _ _ _ _ E).
  now rewrite !group_int_digits.
Qed.

Lemma format_duration_by_value_witness :
  format_duration "PT007H00M05S" = "7時間5秒".
Proof.
  apply (format_duration_by_value
           (Some (D0 (D0 (D7 Nil)))) (Some (D0 (D0 Nil))) (Some (D0 (D5 Nil)))).
  - discriminate.
  - discriminate.
  - discriminate.
Defined.

(** ** The search request *)

Lemma str_replace_offset_suffix (s : string) :
  lacks "+" s = true ->
  str_replace "+00:00" "Z" (s ++ "+00:00") = s ++ "Z".
Proof.
  unfold str_replace. induction s as [|c s IH]; [reflexivity|].
  cbn [lacks]. intros Hc. apply andb_true_iff in Hc as [Hc Hs].
  rewrite !append_String. cbn [replace_from starts_with].
  apply negb_true_iff in Hc. rewrite Ascii.eqb_sym in Hc. rewrite Hc.
  cbn [andb]. now rewrite IH.
Qed.

(** X21: the search request asks for videos, ordered by relevance, with
    parts [id,snippet], published after the instant 14 days before the
    clock reading; when [isoformat] writes that instant with the offset
    [+00:00], the request carries it with the suffix [Z] instead. *)
Theorem search_request_published_after `{Runtime}
    (keyword : string) (max_results now : Z) (s : string) :
  isoformat (now - 1209600000000) = s ++ "+00:00" ->
  lacks "+" s = true ->
  search_request keyword max_results now
  = SearchList keyword "id,snippet" "video" max_results "relevance" (s ++ "Z").
Proof.
  intros Hiso Hs. unfold search_request.
  change trending_period with 1209600000000%Z.
  now rewrite Hiso, str_replace_offset_suffix.
Qed.

Lemma search_request_published_after_witness :
  @search_request Demo.runtime "rocq" 50 Demo.start
  = SearchList "rocq" "id,snippet" "video" 50 "relevance" "2023-10-31T22:13:20Z".
Proof.
  apply (@search_request_published_after Demo.runtime "rocq" 50 Demo.start
           "2023-10-31T22:13:20").
  - reflexivity.
  - reflexivity.
Defined.

(** ** display_results and main *)

Lemma bind_keeps_calls {A B} (m : Py A) (k : A -> Py B) :
  (forall w, calls (m w).2 = calls w) ->
  (forall a w, calls (k a w).2 = calls w) ->
  forall w, calls (bind m k w).2 = calls w.
Proof.
  intros Hm Hk w. unfold bind. specialize (Hm w).
  destruct (m w) as [[a|e] w1]; cbn [snd] in *; [|exact Hm].
  now rewrite Hk.
Qed.

Lemma display_record_keeps_calls `{Runtime} `{Terminal} i video w :
  calls (display_record i video w).2 = calls w.
Proof.
  revert w. unfold display_record.
  repeat (cbn zeta; apply bind_keeps_calls; [intros; reflexivity|intros]).
  reflexivity.
Qed.

Lemma display_from_keeps_calls `{Runtime} `{Terminal} videos i w :
  calls (display_from i videos w).2 = calls w.
Proof.
  revert i w. induction videos as [|v videos IH]; intros i w; [reflexivity|].
  cbn [display_from]. revert w. apply bind_keeps_calls.
  - intros w. apply display_record_keeps_calls.
  - intros _ w. apply IH.
Qed.

(** X22: [display_results] issues no request, whatever the list holds
    and whether it returns or raises. *)
Theorem display_results_issues_no_request `{Runtime} `{Terminal}
    (videos : list (gmap string pyval)) (w : world) :
  calls (display_results videos w).2 = calls w.
Proof.
  unfold display_results. destruct videos as [|v videos]; [reflexivity|].
  revert w.
  repeat (apply bind_keeps_calls; [intros; reflexivity|intros]).
  apply display_from_keeps_calls.
Qed.

Lemma display_record_returns `{Runtime} `{Terminal} i video w w' :
  display_record i video w = (Returns tt, w') ->
  reads w' = S (reads w) /\
  exists lines : list string,
    console w' = (console w ++ lines)%list /\ length lines = 9%nat.
Proof.
  unfold display_record.
  repeat (cbv beta iota zeta delta [bind lift print ret datetime_now_like];
          match goal with
          | |- match ?o with Returns _ => _ | Raises _ => _ end = _ -> _ =>
              destruct o; [|discriminate]
          end).
  cbv beta iota zeta delta [bind lift print ret datetime_now_like].
  intros [= <-]. split; [reflexivity|].
  cbn [console printed clock_read]. rewrite <- !app_assoc.
  eexists. split; reflexivity.
Qed.

Lemma display_from_returns `{Runtime} `{Terminal} videos i w w' :
  display_from i videos w = (Returns tt, w') ->
  reads w' = (reads w + length videos)%nat /\
  exists lines : list string,
    console w' = (console w ++ lines)%list /\
    length lines = (9 * length videos)%nat.
Proof.
  revert i w. induction videos as [|v videos IH]; intros i w; cbn [display_from].
  - unfold ret. intros [= <-]. split; [cbn; lia|].
    exists []. split; [now rewrite app_nil_r|reflexivity].
  - unfold bind at 1.
    destruct (display_record i v w) as [[[]|e] w1] eqn:Hrec; [|discriminate].
    intros Hrest.
    apply display_record_returns in Hrec as (Hr1 & l1 & Hc1 & Hl1).
    apply IH in Hrest as (Hr2 & l2 & Hc2 & Hl2).
    split; [cbn [length]; lia|].
    exists (l1 ++ l2)%list. split.
    + now rewrite Hc2, Hc1, app_assoc.
    + rewrite length_app. cbn [length]. lia.
Qed.

(** X23: when [display_results] returns on a list of n >= 1 records, it
    has read the clock n times and printed the three header lines, the
    second of which gives the count n, followed by nine lines per record. *)
Theorem display_results_lines `{Runtime} `{Terminal}
    (videos : list (gmap string pyval)) (w : world) :
  videos <> [] ->
  (display_results videos w).1 = Returns tt ->
  let w' := (display_results videos w).2 in
  reads w' = (reads w + length videos)%nat /\
  exists lines : list string,
    console w'
    = (console w ++
       [(newline ++ rule 80)%string;
        ("急成長している動画: " ++ decimal (N.of_nat (length videos)) ++ "件")%string;
        (rule 80 ++ newline)%string] ++ lines)%list /\
    length lines = (9 * length videos)%nat.
Proof.
  intros Hne. destruct videos as [|v videos]; [congruence|].
  unfold display_results.
  cbv beta iota zeta delta [bind print].
  destruct (display_from 1 (v :: videos) _) as [[[]|e] w1] eqn:Hfrom;
    cbn [fst snd]; [|discriminate].
  intros _.
  apply display_from_returns in Hfrom as (Hr & lines & Hc & Hl).
  split; [exact Hr|].
  exists lines. split; [|exact Hl].
  rewrite Hc. cbn [console printed]. now rewrite <- !app_assoc.
Qed.

Lemma display_results_lines_witness :
  let videos := [<["trending_score" := PFloat 60000]>
                   (Demo.record "2023-11-14T10:13:20Z" 20000)] in
  let w' := (@display_results Demo.runtime (DemoTerminal.terminal "k" "rocq")
               videos Demo.boot).2 in
  reads w' = 1%nat /\
  exists lines : list string,
    console w'
    = ([(newline ++ rule 80)%string; "急成長している動画: 1件";
        (rule 80 ++ newline)%string] ++ lines)%list /\
    length lines = 9%nat.
Proof.
  apply (@display_results_lines Demo.runtime (DemoTerminal.terminal "k" "rocq")
           [<["trending_score" := PFloat 60000]>
              (Demo.record "2023-11-14T10:13:20Z" 20000)] Demo.boot).
  - discriminate.
  - vm_compute. reflexivity.
Defined.

(** X24: the two input errors of [main].  Without an API key it prints
    its two error lines and returns; no client is built and no prompt is
    shown.  When the line typed is blank once stripped, it says so and
    returns after the banner and the prompt.  In both cases the clock is
    not read and no request is issued. *)
Theorem main_input_errors `{Runtime} `{Terminal} (w : world) :
  (YOUTUBE_API_KEY = "" ->
   main w
   = (Returns tt,
      printed ".envファイルにYOUTUBE_API_KEYを設定してください。"
        (printed "エラー: YouTube APIキーが設定されていません。" w))) /\
  (forall typed : string,
     YOUTUBE_API_KEY <> "" ->
     build YOUTUBE_API_KEY = Returns tt ->
     input_line = Returns typed ->
     strip typed = "" ->
     (main w).1 = Returns tt /\
     reads (main w).2 = reads w /\
     calls (main w).2 = calls w /\
     console (main w).2
     = (console w ++
        ["YouTube急成長動画検索システム"; rule 50;
         (newline ++ "検索キーワードを入力してください: ")%string;
         "キーワードが入力されていません。"])%list).
Proof.
  split.
  - intros Hkey. unfold main. now rewrite Hkey.
  - intros typed Hkey Hbuild Hin Hstrip. unfold main.
    destruct YOUTUBE_API_KEY as [|c key] eqn:Ek; [congruence|].
    cbv beta iota zeta delta [bind lift print input].
    rewrite Hbuild, Hin, Hstrip.
    cbn [fst snd reads calls console printed].
    split; [reflexivity|]. split; [reflexivity|]. split; [reflexivity|].
    now rewrite <- !app_assoc.
Qed.

Lemma main_input_errors_witness :
  @main Demo.runtime (DemoTerminal.terminal "" "rocq") Demo.boot
  = (Returns tt,
     printed ".envファイルにYOUTUBE_API_KEYを設定してください。"
       (printed "エラー: YouTube APIキーが設定されていません。" Demo.boot)) /\
  console (@main Demo.runtime (DemoTerminal.terminal "k" "   ") Demo.boot).2
  = ["YouTube急成長動画検索システム"; rule 50;
     (newline ++ "検索キーワードを入力してください: ")%string;
     "キーワードが入力されていません。"].
Proof.
  split.
  - apply (proj1 (@main_input_errors Demo.runtime
                    (DemoTerminal.terminal "" "rocq") Demo.boot)).
    reflexivity.
  - apply (proj2 (@main_input_errors Demo.runtime
                    (DemoTerminal.terminal "k" "   ") Demo.boot) "   ").
    + discriminate.
    + reflexivity.
    + reflexivity.
    + reflexivity.
Defined.

(** X25: end to end, a search call that raises an error is shown to the
    user as an empty result: [main] returns after one request, and the
    last two lines on the console are the error line and the line that
    says no trending video was found. *)
Theorem main_remote_error `{Runtime} `{Terminal}
    (w : world) (typed : string) (e : pyexn) :
  YOUTUBE_API_KEY <> "" ->
  build YOUTUBE_API_KEY = Returns tt ->
  input_line = Returns typed ->
  strip typed <> "" ->
  is_Exception e = true ->
  execute (calls w)
          (search_request (strip typed) config.DEFAULT_MAX_RESULTS
                          (utcnow (reads w))) = Raises e ->
  (main w).1 = Returns tt /\
  calls (main w).2
  = (calls w ++ [search_request (strip typed) config.DEFAULT_MAX_RESULTS
                                (utcnow (reads w))])%list /\
  exists line : string,
    console (main w).2
    = (console w ++
       ["YouTube急成長動画検索システム"; rule 50;
        (newline ++ "検索キーワードを入力してください: ")%string;
        (newline ++ "「" ++ strip typed ++ "」で検索中...")%string;
        line;
        (newline ++ "急成長している動画が見つかりませんでした。")%string])%list.
Proof.
  intros Hkey Hbuild Hin Hstrip Hexn Hfail. unfold main.
  destruct YOUTUBE_API_KEY as [|c key] eqn:Ek; [congruence|].
  destruct (strip typed) as [|k keyword] eqn:Es; [congruence|].
  set (w0 := printed (newline ++ "「" ++ String k keyword ++ "」で検索中...")
               (printed (newline ++ "検索キーワードを入力してください: ")
                  (printed (rule 50)
                     (printed "YouTube急成長動画検索システム" w)))).
  assert (execute (calls w0)
            (search_request (String k keyword) config.DEFAULT_MAX_RESULTS
               (utcnow (reads w0))) = Raises e) as Hfail0 by exact Hfail.
  destruct (search_videos_handles _ _ w0 e _
              (body_search_raises _ _ w0 e Hfail0) Hexn) as [line Hsearch].
  pose proof (find_trending_videos_nothing_found _ _ 1000 _ _ Hsearch) as Hfind.
  cbv beta iota zeta delta [bind lift print input].
  rewrite Hbuild, Hin, Es. fold w0. rewrite Hfind.
  cbn [display_results fst snd]. repeat split.
  exists line. unfold print. cbn [snd console printed issued clock_read w0].
  subst w0. cbn [console printed]. now rewrite <- !app_assoc.
Qed.

Lemma main_remote_error_witness :
  (@main Demo.runtime (DemoTerminal.terminal "k" " down ") Demo.boot).1
  = Returns tt /\
  calls (@main Demo.runtime (DemoTerminal.terminal "k" " down ") Demo.boot).2
  = [@search_request Demo.runtime "down" 50 Demo.start] /\
  exists line : string,
    console (@main Demo.runtime (DemoTerminal.terminal "k" " down ") Demo.boot).2
    = ["YouTube急成長動画検索システム"; rule 50;
       (newline ++ "検索キーワードを入力してください: ")%string;
       (newline ++ "「" ++ "down" ++ "」で検索中...")%string;
       line;
       (newline ++ "急成長している動画が見つかりませんでした。")%string].
Proof.
  apply (@main_remote_error Demo.runtime (DemoTerminal.terminal "k" " down ")
           Demo.boot " down " (TransportError "timed out")).
  - discriminate.
  - reflexivity.
  - reflexivity.
  - discriminate.
  - reflexivity.
  - reflexivity.
Defined.

(** X26: [main] reaches the network and the clock only behind its
    guards: if a run issued a request or read the clock, then the API key
    was set, the client was built, a line was read and it was not blank
    once stripped. *)
Theorem main_requests_need_key_and_keyword `{Runtime} `{Terminal} (w : world) :
  calls (main w).2 <> calls w \/ reads (main w).2 <> reads w ->
  YOUTUBE_API_KEY <> "" /\
  build YOUTUBE_API_KEY = Returns tt /\
  exists typed : string, input_line = Returns typed /\ strip typed <> "".
Proof.
  unfold main.
  destruct YOUTUBE_API_KEY as [|c key] eqn:Ek.
  { cbv beta iota zeta delta [bind print]. cbn [snd calls reads printed].
    intros [Hc|Hr]; congruence. }
  cbv beta iota zeta delta [bind lift print input].
  destruct (build (String c key)) as [[]|e] eqn:Hbuild.
  2:{ cbn [snd]. intros [Hc|Hr]; congruence. }
  destruct input_line as [typed|e] eqn:Hin.
  2:{ cbn [snd calls reads printed]. intros [Hc|Hr]; congruence. }
  destruct (strip typed) as [|k keyword] eqn:Es.
  { cbn [snd calls reads printed]. intros [Hc|Hr]; congruence. }
  intros _. split; [discriminate|]. split; [reflexivity|].
  exists typed. split; [reflexivity|]. rewrite Es. discriminate.
Qed.

Lemma main_requests_need_key_and_keyword_witness :
  @YOUTUBE_API_KEY (DemoTerminal.terminal "k" " rocq ") <> "" /\
  @build (DemoTerminal.terminal "k" " rocq ")
    (@YOUTUBE_API_KEY (DemoTerminal.terminal "k" " rocq ")) = Returns tt /\
  exists typed : string,
    @input_line (DemoTerminal.terminal "k" " rocq ") = Returns typed /\
    @strip (DemoTerminal.terminal "k" " rocq ") typed <> "".
Proof.
  apply (@main_requests_need_key_and_keyword Demo.runtime
           (DemoTerminal.terminal "k" " rocq ") Demo.boot).
  left. vm_compute. discriminate.
Defined.
